(** * Vertex AI helper scripts: a shallow embedding and its checked properties

    The repository holds three stand-alone Python scripts.  Two of them carry
    the behaviour the specification talks about:

    - [verify_models.py]: loads a YAML mapping of model aliases, lists it and
      probes the alias "gemini-pro" through the managed SDK;
    - [panggil_model.py]: the raw-transport variant, one POST with a bearer
      token obtained from the ambient identity provider.

    Both scripts are sequences of prints and calls to external collaborators
    (file system, YAML parser, SDK, identity provider, HTTP transport) wrapped
    in [try]/[except].  They are embedded in a writer-with-exceptions monad:
    a computation yields the chronological trace of what it printed and which
    collaborator it called, together with the way it completed (fell through,
    executed [return], or raised).  The collaborators are oracles gathered in
    a record: what they answer is an input of the run. *)

From Stdlib Require Import String Ascii List ZArith Bool Lia.

#[local] Set Warnings "-register-all".

Import ListNotations.

Open Scope string_scope.
Open Scope Z_scope.

(** ** Python values, exceptions and the effect monad *)

Module Py.

(** The objects [yaml.safe_load] and [response.json()] build out of scalars,
    sequences and mappings.  A [dict] is kept as an association list in
    insertion order (its keys are pairwise distinct in Python).  Floats,
    dates and binary scalars are left out: like the scalars kept here they
    have neither [items] nor [get] nor a subscript by string. *)
Inductive pyval : Type :=
| PyNone
| PyBool (b : bool)
| PyInt (z : Z)
| PyStr (s : string)
| PyList (l : list pyval)
| PyDict (d : list (pyval * pyval)).

(** [bool(v)], as used by [if not config]. *)
Definition truthy (v : pyval) : bool :=
  match v with
  | PyNone => false
  | PyBool b => b
  | PyInt z => negb (z =? 0)
  | PyStr s => negb (String.eqb s EmptyString)
  | PyList l => match l with [] => false | _ => true end
  | PyDict d => match d with [] => false | _ => true end
  end.

(** [type(v).__name__], which the interpreter puts in its messages. *)
Definition type_name (v : pyval) : string :=
  match v with
  | PyNone => "NoneType"
  | PyBool _ => "bool"
  | PyInt _ => "int"
  | PyStr _ => "str"
  | PyList _ => "list"
  | PyDict _ => "dict"
  end.

(** [k == s] for a string [s]: only a [str] object equals a [str]. *)
Definition eq_str (s : string) (k : pyval) : bool :=
  match k with
  | PyStr s' => String.eqb s s'
  | _ => false
  end.

(** Lookup of a string key in the entries of a [dict]. *)
Fixpoint dict_lookup (s : string) (d : list (pyval * pyval)) : option pyval :=
  match d with
  | [] => None
  | (k, v) :: d' => if eq_str s k then Some v else dict_lookup s d'
  end.

(** A piece of a formatted line.  Conversions of objects to text are kept
    symbolic: [Fmt v] is [str(v)], [Repr v] is [repr(v)], [Strip s] is
    [s.strip()] and [JsonDumps v n] is [json.dumps(v, indent=n)]. *)
Inductive piece : Type :=
| Lit (s : string)
| Fmt (v : pyval)
| Repr (v : pyval)
| Strip (s : string)
| JsonDumps (v : pyval) (indent : nat).

Definition line := list piece.

(** What [response.json()] finds in the body of an HTTP response. *)
Inductive json_body : Type :=
| JsonOk (v : pyval)
| JsonBad (why : string).

(** The fields of a [requests.Response] the script reads. *)
Record http_response : Type := {
  status_code : Z;
  reason : string;
  resp_url : string;
  body : json_body
}.

(** Exception classes that the scripts, the test and their collaborators
    raise.  [PytestFailed] is the exception of [pytest.fail]. *)
Inductive exn_class : Type :=
| FileNotFoundError
| IsADirectoryError
| OSError
| YAMLError
| AttributeError
| KeyError
| TypeError
| ValueError
| DefaultCredentialsError
| RefreshError
| HTTPError
| ConnectionError
| JSONDecodeError
| GoogleAPICallError
| AssertionError
| PytestFailed
| KeyboardInterrupt.

(** An exception object: its class, [str(e)] and, for the exceptions of
    [requests], the [response] attribute. *)
Record exn : Type := {
  cls : exn_class;
  msg : line;
  response : option http_response
}.

Definition mk_exn (c : exn_class) (m : line) : exn :=
  {| cls := c; msg := m; response := None |}.

(** The [except] clauses of the scripts, as tests on the class
    ([isinstance]).  [KeyboardInterrupt] and the exception of [pytest.fail]
    derive from [BaseException] only, every other class here derives from
    [Exception]. *)
Definition is_FileNotFoundError (c : exn_class) : bool :=
  match c with FileNotFoundError => true | _ => false end.

Definition is_DefaultCredentialsError (c : exn_class) : bool :=
  match c with DefaultCredentialsError => true | _ => false end.

Definition is_HTTPError (c : exn_class) : bool :=
  match c with HTTPError => true | _ => false end.

Definition is_Exception (c : exn_class) : bool :=
  match c with KeyboardInterrupt | PytestFailed => false | _ => true end.

(** The answer of a collaborator. *)
Inductive res (A : Type) : Type :=
| Ok (a : A)
| Raise (e : exn).
Arguments Ok {A} a.
Arguments Raise {A} e.

(** The credentials object of [google.auth.default]: what [refresh] does
    and the value of [token] once refreshed. *)
Record credentials : Type := {
  cred_refresh : res unit;
  cred_token : string
}.

(** The response object of [generate_content]: its [text] property. *)
Record gen_response : Type := {
  text : res string
}.

(** Observable events of a run, in the order they happen. *)
Inductive event : Type :=
| EPrint (l : line)
| EOpen (path : string)
| ESafeLoad
| EInit (project location : string)
| EGenerativeModel (endpoint : pyval)
| EGenerate (endpoint : pyval) (prompt : string)
| EAuthDefault (scopes : list string)
| ERefresh
| EPost (url : string) (headers : list (string * string)) (json : pyval)
| EAiplatformInit (project location : string)
| EModelList.

(** Calls towards the remote service: initialising the SDK connection,
    building, calling or listing models, refreshing a token and posting. *)
Definition is_network (ev : event) : bool :=
  match ev with
  | EInit _ _ | EGenerativeModel _ | EGenerate _ _ | ERefresh | EPost _ _ _
  | EAiplatformInit _ _ | EModelList => true
  | EPrint _ | EOpen _ | ESafeLoad | EAuthDefault _ => false
  end.

Definition is_post (ev : event) : bool :=
  match ev with EPost _ _ _ => true | _ => false end.

(** How a block of statements ends: it falls through with a value, it
    executes [return] (the functions here return [None]), or it raises. *)
Inductive outcome (A : Type) : Type :=
| Done (a : A)
| Return
| Throw (e : exn).
Arguments Done {A} a.
Arguments Return {A}.
Arguments Throw {A} e.

Definition M (A : Type) : Type := (list event * outcome A)%type.

Definition ret {A} (a : A) : M A := ([], Done a).

Definition bind {A B} (m : M A) (k : A -> M B) : M B :=
  match m with
  | (t, Done a) => let (t', o) := k a in ((t ++ t')%list, o)
  | (t, Return) => (t, Return)
  | (t, Throw e) => (t, Throw e)
  end.

(** [print(l)].  The standard output is taken to accept every line: a
    stream that cannot encode or take a line is outside the model. *)
Definition print (l : line) : M unit := ([EPrint l], Done tt).

Definition return_ {A} : M A := ([], Return).

(** [raise e]. *)
Definition raise {A} (e : exn) : M A := ([], Throw e).

(** A call to a collaborator: the call is recorded, its answer decides how
    the run goes on. *)
Definition call {A} (ev : event) (r : res A) : M A :=
  ([ev], match r with Ok a => Done a | Raise e => Throw e end).

(** An operation of the interpreter itself (attribute access, subscript):
    nothing is recorded. *)
Definition lift {A} (r : res A) : M A :=
  ([], match r with Ok a => Done a | Raise e => Throw e end).

(** One [except C as e: ...] clause. *)
Definition handler (A : Type) : Type := ((exn_class -> bool) * (exn -> M A))%type.

Fixpoint select {A} (hs : list (handler A)) (e : exn) : option (exn -> M A) :=
  match hs with
  | [] => None
  | (test, h) :: hs' => if test (cls e) then Some h else select hs' e
  end.

(** [try: body  except ...]: an exception of the body is given to the first
    clause whose class matches; what that clause does, a raise included,
    is what the statement does. *)
Definition try_except {A} (body : M A) (hs : list (handler A)) : M A :=
  match body with
  | (t, Throw e) =>
      match select hs e with
      | Some h => let (t', o) := h e in ((t ++ t')%list, o)
      | None => (t, Throw e)
      end
  | _ => body
  end.

(** [for x in l: body x]. *)
Fixpoint for_each {A} (l : list A) (body : A -> M unit) : M unit :=
  match l with
  | [] => ret tt
  | x :: l' => bind (body x) (fun _ => for_each l' body)
  end.

(** The process around [if __name__ == "__main__": f()]: a call that comes
    back lets the interpreter exit with status 0; an exception that leaves
    the function is reported by the interpreter, which then exits with a
    status other than 0 (1, or the one of an interrupt). *)
Inductive completion : Type :=
| Exited (status : Z)
| Crashed (e : exn) (status : Z).

Definition exit_status (c : completion) : Z :=
  match c with Exited s => s | Crashed _ s => s end.

Definition run_main {A} (m : M A) : list event * completion :=
  match m with
  | (t, Done _) | (t, Return) => (t, Exited 0)
  | (t, Throw e) =>
      (t, Crashed e (match cls e with KeyboardInterrupt => 130 | _ => 1 end))
  end.

Definition trace {A} (m : M A) : list event := fst m.
Definition result {A} (m : M A) : outcome A := snd m.

(** [s * n] on strings. *)
Fixpoint str_mul (s : string) (n : nat) : string :=
  match n with
  | O => EmptyString
  | S n' => s ++ str_mul s n'
  end.

Definition nl : string := String "010"%char EmptyString.

(** The double-quote character, as a string. *)
Definition dq : string := String "034"%char EmptyString.

(** [v.items()]: only a mapping has the method. *)
Definition py_items (v : pyval) : res (list (pyval * pyval)) :=
  match v with
  | PyDict d => Ok d
  | _ => Raise (mk_exn AttributeError
                  [Lit "'"; Lit (type_name v); Lit "' object has no attribute 'items'"])
  end.

(** [v.get(key)]: on a mapping, the value or [None]. *)
Definition py_get (v : pyval) (key : string) : res pyval :=
  match v with
  | PyDict d => Ok (match dict_lookup key d with Some x => x | None => PyNone end)
  | _ => Raise (mk_exn AttributeError
                  [Lit "'"; Lit (type_name v); Lit "' object has no attribute 'get'"])
  end.

(** [key in v] for a string [key]. *)
Definition py_contains (key : string) (v : pyval) : res bool :=
  match v with
  | PyDict d => Ok (match dict_lookup key d with Some _ => true | None => false end)
  | PyList l => Ok (existsb (eq_str key) l)
  | PyStr s => Ok (match String.index 0 key s with Some _ => true | None => false end)
  | _ => Raise (mk_exn TypeError
                  [Lit "argument of type '"; Lit (type_name v); Lit "' is not iterable"])
  end.

(** [v[key]] for a string [key]. *)
Definition py_getitem (v : pyval) (key : string) : res pyval :=
  match v with
  | PyDict d =>
      match dict_lookup key d with
      | Some x => Ok x
      | None => Raise (mk_exn KeyError [Repr (PyStr key)])
      end
  | PyList _ =>
      Raise (mk_exn TypeError [Lit "list indices must be integers or slices, not str"])
  | PyStr _ =>
      Raise (mk_exn TypeError [Lit "string indices must be integers, not 'str'"])
  | _ => Raise (mk_exn TypeError
                  [Lit "'"; Lit (type_name v); Lit "' object is not subscriptable"])
  end.

End Py.

Import Py.

Declare Scope py_scope.
Delimit Scope py_scope with py.
Notation "x <- m ;; k" := (bind m (fun x => k))
  (at level 61, m at next level, right associativity) : py_scope.
Notation "m ;;; k" := (bind m (fun _ => k))
  (at level 61, right associativity) : py_scope.
Open Scope py_scope.

(** ** verify_models.py *)

Module VerifyModels.

(** The collaborators of the script. *)
Record world : Type := {
  fs_open : string -> res string;
  yaml_safe_load : string -> res pyval;
  vertexai_init : string -> string -> res unit;
  GenerativeModel : pyval -> res unit;
  generate_content : pyval -> string -> res gen_response
}.

Definition config_path : string := "src/vtx_cli/configs/models.yaml".
Definition project_id : string := "protean-tooling-476420-i8".
Definition location : string := "us-central1".
Definition model_to_test : string := "gemini-pro".
Definition prompt : string :=
  "Explain what a Large Language Model is in one simple sentence.".

(** The lines the script prints. *)
Definition msg_loading (path : string) : line :=
  [Lit "--- Loading models from "; Lit path; Lit (" ---" ++ nl)].
Definition msg_empty : line :=
  [Lit "❌ Error: models.yaml is empty or could not be read."].
Definition msg_available : line :=
  [Lit "✅ Models available in your configuration file:"].
Definition msg_entry (model_id name : pyval) : line :=
  [Lit "- "; Fmt model_id; Lit " ("; Fmt name; Lit ")"].
Definition msg_separator : line :=
  [Lit (nl ++ str_mul "=" 40 ++ nl)].
Definition msg_not_found (path : string) : line :=
  [Lit "❌ Error: Configuration file not found at "; Lit path].
Definition msg_read_error (e : exn) : line :=
  Lit "❌ Error reading or parsing YAML file: " :: msg e.
Definition msg_skip (alias : string) : line :=
  [Lit "Model '"; Lit alias; Lit "' not found in config. Skipping live test."].
Definition msg_live_test (alias : string) (endpoint_id : pyval) : line :=
  [Lit "--- Performing a live test with '"; Lit alias; Lit "' (";
   Fmt endpoint_id; Lit (") ---" ++ nl)].
Definition msg_failed (e : exn) : line :=
  Lit (nl ++ "❌ FAILED: An error occurred during the live test: ") :: msg e.

(** Lines 24-25: the listing loop. *)
Definition list_entry (entry : pyval * pyval) : M unit :=
  let (model_id, details) := entry in
  name <- lift (py_get details "name") ;;
  print (msg_entry model_id name).

(** Lines 15-33: load the file and list it.  The block yields [config]
    for the statements after it; every [except] clause returns. *)
Definition load_and_list (w : world) (path : string) : M pyval :=
  try_except
    (f <- call (EOpen path) (fs_open w path) ;;
     config <- call ESafeLoad (yaml_safe_load w f) ;;
     if negb (truthy config) then
       print msg_empty ;;; return_
     else
       print msg_available ;;;
       items <- lift (py_items config) ;;
       for_each items list_entry ;;;
       print msg_separator ;;;
       ret config)
    [ (is_FileNotFoundError,
        fun _ => print (msg_not_found path) ;;; return_);
      (is_Exception,
        fun e => print (msg_read_error e) ;;; return_) ].

(** Lines 44-67: the live test. *)
Definition live_test (w : world) (project loc : string) (endpoint_id : pyval)
    (prompt : string) : M unit :=
  try_except
    (print [Lit "1. Initializing connection to Vertex AI..."] ;;;
     call (EInit project loc) (vertexai_init w project loc) ;;;
     print [Lit ("   ✅ Connection successful." ++ nl)] ;;;
     print [Lit "2. Accessing model..."] ;;;
     call (EGenerativeModel endpoint_id) (GenerativeModel w endpoint_id) ;;;
     print [Lit ("   ✅ Model accessed successfully." ++ nl)] ;;;
     print [Lit "3. Sending a test prompt..."] ;;;
     print [Lit ("   Prompt: " ++ dq); Lit prompt; Lit dq] ;;;
     response <- call (EGenerate endpoint_id prompt)
                      (generate_content w endpoint_id prompt) ;;
     print [Lit (nl ++ "   🤖 Model Response:")] ;;;
     txt <- lift (text response) ;;
     print [Lit ("   " ++ dq); Strip txt; Lit (dq ++ nl)] ;;;
     print [Lit (str_mul "=" 40)] ;;;
     print [Lit (nl ++ "✅ SUCCESS: Your gcloud configuration is correct and you can use the models in models.yaml.")])
    [ (is_Exception,
        fun e =>
          print (msg_failed e) ;;;
          print [Lit (nl ++ "This might be because the specific model endpoint is not available for your project,")] ;;;
          print [Lit "or there's a temporary issue with the service. However, your base gcloud setup is correct."]) ].

(** The body of [verify_model_usage], with its local constants as
    parameters. *)
Definition verify_model_usage_with (w : world)
    (path project loc alias prompt : string) : M unit :=
  print (msg_loading path) ;;;
  config <- load_and_list w path ;;
  absent <- lift (match py_contains alias config with
                  | Ok b => Ok (negb b)
                  | Raise e => Raise e
                  end) ;;
  if (absent : bool) then
    print (msg_skip alias) ;;; return_
  else
    entry <- lift (py_getitem config alias) ;;
    endpoint_id <- lift (py_getitem entry "endpoint_id") ;;
    print (msg_live_test alias endpoint_id) ;;;
    live_test w project loc endpoint_id prompt.

Definition verify_model_usage (w : world) : M unit :=
  verify_model_usage_with w config_path project_id location model_to_test prompt.

(** The script run as a process. *)
Definition main (w : world) : list event * completion :=
  run_main (verify_model_usage w).

End VerifyModels.

(** ** panggil_model.py *)

Module PanggilModel.

(** The collaborators of the script: the ambient identity provider and the
    HTTP transport. *)
Record world : Type := {
  google_auth_default : list string -> res credentials;
  requests_post : string -> list (string * string) -> pyval -> res http_response
}.

Definition PROJECT_ID : string := "protean-tooling-476420-i8".
Definition REGION : string := "us-south1".
Definition MODEL_ID : string := "gemini-1.0-pro".
Definition PROMPT : string := "What is the capital of Texas?".
Definition SCOPES : list string :=
  ["https://www.googleapis.com/auth/cloud-platform"].

(** Line 17. *)
Definition ENDPOINT (region : string) : string :=
  region ++ "-aiplatform.googleapis.com".

(** Line 34. *)
Definition build_url (project region : string) : string :=
  "https://" ++ ENDPOINT region ++ "/v1/projects/" ++ project
    ++ "/locations/" ++ region ++ "/endpoints/openapi/chat/completions".

(** Lines 37-40. *)
Definition build_headers (token : string) : list (string * string) :=
  [("Authorization", "Bearer " ++ token);
   ("Content-Type", "application/json")].

(** Lines 43-47. *)
Definition build_data (model prompt : string) : pyval :=
  PyDict
    [(PyStr "model", PyStr model);
     (PyStr "stream", PyBool false);
     (PyStr "messages",
       PyList [PyDict [(PyStr "role", PyStr "user");
                       (PyStr "content", PyStr prompt)]])].

(** [requests.Response.raise_for_status]: an [HTTPError] carrying the
    response for the client-error and server-error classes of status
    codes, nothing otherwise. *)
Definition raise_for_status (r : http_response) : res unit :=
  if (400 <=? status_code r) && (status_code r <? 500) then
    Raise {| cls := HTTPError;
             msg := [Fmt (PyInt (status_code r)); Lit " Client Error: ";
                     Lit (reason r); Lit " for url: "; Lit (resp_url r)];
             response := Some r |}
  else if (500 <=? status_code r) && (status_code r <? 600) then
    Raise {| cls := HTTPError;
             msg := [Fmt (PyInt (status_code r)); Lit " Server Error: ";
                     Lit (reason r); Lit " for url: "; Lit (resp_url r)];
             response := Some r |}
  else Ok tt.

(** [requests.Response.json]. *)
Definition response_json (r : http_response) : res pyval :=
  match body r with
  | JsonOk v => Ok v
  | JsonBad why => Raise (mk_exn JSONDecodeError [Lit why])
  end.

(** [e.response] followed by an attribute access: [None] has none. *)
Definition exn_response (e : exn) (attr : string) : res http_response :=
  match response e with
  | Some r => Ok r
  | None => Raise (mk_exn AttributeError
                     [Lit "'NoneType' object has no attribute '"; Lit attr; Lit "'"])
  end.

Definition msg_no_credentials : line :=
  [Lit "❌ GAGAL: Kredensial tidak ditemukan."].
Definition msg_login_hint : line :=
  [Lit "Pastikan Anda sudah menjalankan 'gcloud auth application-default login'."].
Definition msg_http_error (status : Z) : line :=
  [Lit "❌ GAGAL: Terjadi error HTTP "; Fmt (PyInt status)].
Definition msg_server_says : line :=
  [Lit "--- Pesan Error dari Server ---"].
Definition msg_model_garden : line :=
  [Lit (nl ++ "Seperti yang diduga, ini kemungkinan besar karena proyek Anda belum memiliki akses ke model ini di Model Garden.")].
Definition msg_enable_hint : line :=
  [Lit "Silakan aktifkan model di Google Cloud Console terlebih dahulu."].
Definition msg_unexpected (e : exn) : line :=
  Lit "❌ GAGAL: Terjadi error yang tidak terduga: " :: msg e.
Definition msg_response_header : line :=
  [Lit "--- Respons dari Model ---"].
Definition msg_success : line :=
  [Lit (nl ++ "✅ Permintaan berhasil diproses.")].

(** Lines 63-65. *)
Definition on_credentials_error (_ : exn) : M unit :=
  print msg_no_credentials ;;;
  print msg_login_hint.

(** Lines 66-72. *)
Definition on_http_error (e : exn) : M unit :=
  r <- lift (exn_response e "status_code") ;;
  print (msg_http_error (status_code r)) ;;;
  print msg_server_says ;;;
  r' <- lift (exn_response e "json") ;;
  v <- lift (response_json r') ;;
  print [JsonDumps v 2] ;;;
  print msg_model_garden ;;;
  print msg_enable_hint.

(** Lines 73-74. *)
Definition on_exception (e : exn) : M unit :=
  print (msg_unexpected e).

(** Lines 13-61: the body of the [try].  Line 27 builds the transport
    object that [refresh] is given; building it calls nothing. *)
Definition attempt (w : world) (project region model prompt : string) : M unit :=
  print [Lit "Mencoba memanggil model: "; Lit model; Lit nl] ;;;
  print [Lit "Mengambil token autentikasi dari gcloud..."] ;;;
  credentials <- call (EAuthDefault SCOPES) (google_auth_default w SCOPES) ;;
  call ERefresh (cred_refresh credentials) ;;;
  let token := cred_token credentials in
  print [Lit ("✅ Token berhasil didapatkan." ++ nl)] ;;;
  let url := build_url project region in
  let headers := build_headers token in
  let data := build_data model prompt in
  print [Lit "Mengirim permintaan ke: "; Lit url] ;;;
  print [Lit ("Dengan prompt: " ++ dq); Lit prompt; Lit (dq ++ nl)] ;;;
  response <- call (EPost url headers data) (requests_post w url headers data) ;;
  lift (raise_for_status response) ;;;
  print msg_response_header ;;;
  v <- lift (response_json response) ;;
  print [JsonDumps v 2] ;;;
  print msg_success.

(** The body of [panggil_model_vertex], with its constants as
    parameters. *)
Definition panggil_model_vertex_with (w : world)
    (project region model prompt : string) : M unit :=
  try_except (attempt w project region model prompt)
    [ (is_DefaultCredentialsError, on_credentials_error);
      (is_HTTPError, on_http_error);
      (is_Exception, on_exception) ].

Definition panggil_model_vertex (w : world) : M unit :=
  panggil_model_vertex_with w PROJECT_ID REGION MODEL_ID PROMPT.

(** The script run as a process. *)
Definition main (w : world) : list event * completion :=
  run_main (panggil_model_vertex w).

End PanggilModel.

(** ** Observations on values and traces *)

Module Observe.

Import VerifyModels PanggilModel.

Definition is_mapping (v : pyval) : bool :=
  match v with PyDict _ => true | _ => false end.

(** Every value of the mapping is itself a mapping. *)
Definition all_mappings (d : list (pyval * pyval)) : bool :=
  forallb (fun kv => is_mapping (snd kv)) d.

(** What the listing shows for an entry: its 'name', or [None]. *)
Definition display_name (details : pyval) : pyval :=
  match details with
  | PyDict m => match dict_lookup "name" m with Some x => x | None => PyNone end
  | _ => PyNone
  end.

(** The lines of the listing, one per entry, in the order of the file. *)
Definition listing (d : list (pyval * pyval)) : list event :=
  map (fun kv => EPrint (msg_entry (fst kv) (display_name (snd kv)))) d.

(** What the run does up to and including the listing. *)
Definition loaded_prefix (path : string) (d : list (pyval * pyval)) : list event :=
  ([EPrint (msg_loading path); EOpen path; ESafeLoad; EPrint msg_available]
     ++ listing d ++ [EPrint msg_separator])%list.

(** A printed line that starts with the given text. *)
Definition starts_with (prefix : string) (ev : event) : bool :=
  match ev with
  | EPrint (Lit s :: _) => String.eqb s prefix
  | _ => false
  end.

(** The diagnostic of the [HTTPError] clause. *)
Definition is_http_error_line : event -> bool :=
  starts_with "❌ GAGAL: Terjadi error HTTP ".

(** The diagnostic of the catch-all clause of panggil_model.py. *)
Definition is_unexpected_line : event -> bool :=
  starts_with "❌ GAGAL: Terjadi error yang tidak terduga: ".

(** The diagnostic of the catch-all clause of the loader. *)
Definition is_read_error_line : event -> bool :=
  starts_with "❌ Error reading or parsing YAML file: ".

(** A status code outside 200..299. *)
Definition non_2xx (status : Z) : bool :=
  negb ((200 <=? status) && (status <? 300)).

(** What the raw-transport run does up to and including the POST. *)
Definition posted_prefix (project region model prompt token : string) : list event :=
  [EPrint [Lit "Mencoba memanggil model: "; Lit model; Lit nl];
   EPrint [Lit "Mengambil token autentikasi dari gcloud..."];
   EAuthDefault SCOPES;
   ERefresh;
   EPrint [Lit ("✅ Token berhasil didapatkan." ++ nl)];
   EPrint [Lit "Mengirim permintaan ke: "; Lit (build_url project region)];
   EPrint [Lit ("Dengan prompt: " ++ dq); Lit prompt; Lit (dq ++ nl)];
   EPost (build_url project region) (build_headers token) (build_data model prompt)].

(** A collaborator that fails does so with a subclass of [Exception]
    (no interrupt of the interpreter is delivered during the call). *)
Definition raises_exceptions {A} (r : res A) : Prop :=
  match r with
  | Ok _ => True
  | Raise e => is_Exception (cls e) = true
  end.

Definition sdk_raises_exceptions (w : VerifyModels.world) : Prop :=
  (forall p, raises_exceptions (fs_open w p))
  /\ (forall f, raises_exceptions (yaml_safe_load w f))
  /\ (forall p l, raises_exceptions (vertexai_init w p l))
  /\ (forall ep, raises_exceptions (GenerativeModel w ep))
  /\ (forall ep p, raises_exceptions (generate_content w ep p))
  /\ (forall ep p r, generate_content w ep p = Ok r -> raises_exceptions (text r)).

Definition transport_raises_exceptions (w : PanggilModel.world) : Prop :=
  (forall s, raises_exceptions (google_auth_default w s))
  /\ (forall s c, google_auth_default w s = Ok c -> raises_exceptions (cred_refresh c))
  /\ (forall u h j, raises_exceptions (requests_post w u h j)).

End Observe.

(** ** Sample environments *)

Module Samples.

Import VerifyModels PanggilModel Observe.

(** The configuration of the round-trip scenario. *)
Definition gemini_config : pyval :=
  PyDict [(PyStr "gemini-pro",
            PyDict [(PyStr "name", PyStr "Gemini Pro");
                    (PyStr "endpoint_id", PyStr "gemini-pro-001")])].

(** The same mapping, its entry without a display name. *)
Definition unnamed_config : pyval :=
  PyDict [(PyStr "gemini-pro",
            PyDict [(PyStr "endpoint_id", PyStr "gemini-pro-001")])].


(** A mapping whose probed entry has a display name and nothing else. *)
Definition no_endpoint_config : pyval :=
  PyDict [(PyStr "gemini-pro", PyDict [(PyStr "name", PyStr "Gemini Pro")])].


(** An SDK that answers every call, with the given text. *)
Definition sdk_world (loaded : res pyval) (answer : string) : VerifyModels.world :=
  {| fs_open := fun _ => Ok "models";
     yaml_safe_load := fun _ => loaded;
     vertexai_init := fun _ _ => Ok tt;
     GenerativeModel := fun _ => Ok tt;
     generate_content := fun _ _ => Ok {| text := Ok answer |} |}.

(** A file system without the configuration file. *)
Definition missing_file_world : VerifyModels.world :=
  {| fs_open := fun p =>
       Raise (mk_exn FileNotFoundError
                [Lit "[Errno 2] No such file or directory: "; Repr (PyStr p)]);
     yaml_safe_load := fun _ => Ok PyNone;
     vertexai_init := fun _ _ => Ok tt;
     GenerativeModel := fun _ => Ok tt;
     generate_content := fun _ _ => Ok {| text := Ok "ok" |} |}.

Definition good_credentials : credentials :=
  {| cred_refresh := Ok tt; cred_token := "ya29.token" |}.

(** A transport that answers every request with [r]. *)
Definition http_world (r : http_response) : PanggilModel.world :=
  {| google_auth_default := fun _ => Ok good_credentials;
     requests_post := fun _ _ _ => Ok r |}.

(** An environment without default credentials. *)
Definition no_credentials_world : PanggilModel.world :=
  {| google_auth_default := fun _ =>
       Raise (mk_exn DefaultCredentialsError
                [Lit "Your default credentials were not found."]);
     requests_post := fun _ _ _ =>
       Ok {| status_code := 200; reason := "OK"; resp_url := build_url PROJECT_ID REGION;
             body := JsonOk (PyDict []) |} |}.

Definition model_not_found : pyval :=
  PyDict [(PyStr "error", PyDict [(PyStr "message", PyStr "model not found")])].

(** The simulated 403 of the specification. *)
Definition forbidden_response : http_response :=
  {| status_code := 403; reason := "Forbidden";
     resp_url := build_url PROJECT_ID REGION;
     body := JsonOk model_not_found |}.

(** A 304: it comes without a body, so there is nothing to decode. *)
Definition not_modified_response : http_response :=
  {| status_code := 304; reason := "Not Modified";
     resp_url := build_url PROJECT_ID REGION;
     body := JsonBad "Expecting value: line 1 column 1 (char 0)" |}.

(** A 502 from a proxy, with an HTML page as its body. *)
Definition bad_gateway_response : http_response :=
  {| status_code := 502; reason := "Bad Gateway";
     resp_url := build_url PROJECT_ID REGION;
     body := JsonBad "Expecting value: line 1 column 1 (char 0)" |}.

End Samples.


(** ** test_gcloud.py *)

Module TestGcloud.

(** The collaborators of the test: the two SDK calls, and the text the
    runner gives to the [AssertionError] of a failed [assert] (pytest
    rewrites the assertions of a test module; without that it is empty). *)
Record world : Type := {
  aiplatform_init : string -> string -> res unit;
  Model_list : res pyval;
  assert_message : line
}.

Definition project : string := "protean-tooling-476420-i8".
Definition location : string := "us-central1".

(** [v is not None]. *)
Definition is_not_none (v : pyval) : bool :=
  match v with PyNone => false | _ => true end.

(** [assert cond]. *)
Definition py_assert (cond : bool) (detail : line) : M unit :=
  if cond then ret tt else raise (mk_exn AssertionError detail).

(** [pytest.fail(reason)]: raises the runner's exception. *)
Definition pytest_fail {A} (reason : line) : M A :=
  raise (mk_exn PytestFailed reason).

(** Lines 6-19. *)
Definition test_vertex_ai_initialization (w : world) : M unit :=
  try_except
    (call (EAiplatformInit project location) (aiplatform_init w project location) ;;;
     models <- call EModelList (Model_list w) ;;
     py_assert (is_not_none models) (assert_message w))
    [ (is_Exception,
        fun e => pytest_fail (Lit "Vertex AI initialization failed: " :: msg e)) ].

End TestGcloud.

(** ** Further observations and environments *)

Module Reports.

Import VerifyModels PanggilModel Observe.

Definition is_print (ev : event) : bool :=
  match ev with EPrint _ => true | _ => false end.

Definition is_generate (ev : event) : bool :=
  match ev with EGenerate _ _ => true | _ => false end.

(** The diagnostic of the [FileNotFoundError] clause of the loader. *)
Definition is_not_found_line : event -> bool :=
  starts_with "❌ Error: Configuration file not found at ".

(** The line that closes a successful run of panggil_model.py. *)
Definition is_success_line : event -> bool :=
  starts_with (nl ++ "✅ Permintaan berhasil diproses.").

(** What a live test prints and calls when every step succeeds. *)
Definition live_success (project loc : string) (endpoint_id : pyval)
    (prompt txt : string) : list event :=
  [EPrint [Lit "1. Initializing connection to Vertex AI..."];
   EInit project loc;
   EPrint [Lit ("   ✅ Connection successful." ++ nl)];
   EPrint [Lit "2. Accessing model..."];
   EGenerativeModel endpoint_id;
   EPrint [Lit ("   ✅ Model accessed successfully." ++ nl)];
   EPrint [Lit "3. Sending a test prompt..."];
   EPrint [Lit ("   Prompt: " ++ dq); Lit prompt; Lit dq];
   EGenerate endpoint_id prompt;
   EPrint [Lit (nl ++ "   🤖 Model Response:")];
   EPrint [Lit ("   " ++ dq); Strip txt; Lit (dq ++ nl)];
   EPrint [Lit (str_mul "=" 40)];
   EPrint [Lit (nl ++ "✅ SUCCESS: Your gcloud configuration is correct and you can use the models in models.yaml.")]].




End Reports.

Module Worlds.

Import VerifyModels PanggilModel.

(** An SDK whose three calls answer as given. *)
Definition probe_world (loaded : res pyval) (init model : res unit)
    (generated : res gen_response) : VerifyModels.world :=
  {| fs_open := fun _ => Ok "models";
     yaml_safe_load := fun _ => loaded;
     vertexai_init := fun _ _ => init;
     GenerativeModel := fun _ => model;
     generate_content := fun _ _ => generated |}.

(** An identity provider and a transport that answer as given. *)
Definition transport_world (creds : res credentials) (posted : res http_response)
    : PanggilModel.world :=
  {| google_auth_default := fun _ => creds;
     requests_post := fun _ _ _ => posted |}.

Definition permission_denied : exn :=
  mk_exn GoogleAPICallError [Lit "403 Permission denied on resource project"].


Definition interrupt : exn := mk_exn KeyboardInterrupt [].





Definition other_credentials : credentials :=
  {| cred_refresh := Ok tt; cred_token := "ya29.other" |}.

(** A 200 with a JSON body, and a 200 whose body is no JSON. *)
Definition ok_response : http_response :=
  {| status_code := 200; reason := "OK";
     resp_url := build_url PROJECT_ID REGION;
     body := JsonOk (PyDict [(PyStr "choices", PyList [])]) |}.



(** A file system in which the configuration path names a directory. *)
Definition is_a_directory : exn :=
  mk_exn IsADirectoryError
    [Lit "[Errno 21] Is a directory: "; Repr (PyStr config_path)].

Definition directory_world : VerifyModels.world :=
  {| fs_open := fun _ => Raise is_a_directory;
     yaml_safe_load := fun _ => Ok PyNone;
     vertexai_init := fun _ _ => Ok tt;
     GenerativeModel := fun _ => Ok tt;
     generate_content := fun _ _ => Ok {| text := Ok "ok" |} |}.

(** Environments of the smoke test. *)
Definition listing_sdk (listed : res pyval) : TestGcloud.world :=
  {| TestGcloud.aiplatform_init := fun _ _ => Ok tt;
     TestGcloud.Model_list := listed;
     TestGcloud.assert_message := [Lit "assert None is not None"] |}.

Definition unreachable_sdk : TestGcloud.world :=
  {| TestGcloud.aiplatform_init := fun _ _ => Raise permission_denied;
     TestGcloud.Model_list := Ok (PyList []);
     TestGcloud.assert_message := [] |}.

End Worlds.

Import VerifyModels PanggilModel Observe Samples.
Import Reports Worlds.

(** ** The effect monad *)

Lemma bind_done {A B} (t : list event) (a : A) (k : A -> M B) :
  bind (t, Done a) k = ((t ++ trace (k a))%list, result (k a)).
Proof. unfold bind, trace, result. destruct (k a); reflexivity. Qed.

Lemma bind_throw {A B} (t : list event) (e : exn) (k : A -> M B) :
  bind (t, Throw e) k = (t, Throw e).
Proof. reflexivity. Qed.

Lemma trace_bind {A B} (m : M A) (k : A -> M B) :
  trace (bind m k) =
    (trace m ++ match result m with
                | Done a => trace (k a)
                | _ => []
                end)%list.
Proof.
  destruct m as [t [a | | e]]; cbn; try (rewrite app_nil_r; reflexivity).
  destruct (k a); reflexivity.
Qed.

Lemma trace_try_except {A} (m : M A) (hs : list (handler A)) :
  trace (try_except m hs) =
    (trace m ++ match result m with
                | Throw e =>
                    match select hs e with
                    | Some h => trace (h e)
                    | None => []
                    end
                | _ => []
                end)%list.
Proof.
  destruct m as [t [a | | e]]; cbn; try (rewrite app_nil_r; reflexivity).
  destruct (select hs e) as [h |]; [destruct (h e) | rewrite app_nil_r]; reflexivity.
Qed.

(** Evaluation of a run, leaving the tests on symbolic values folded. *)
Ltac run_py :=
  cbn -[truthy for_each listing loaded_prefix live_test
        raise_for_status build_url build_headers build_data].

(** ** The listing loop of verify_models.py *)

Lemma list_entry_mapping (k : pyval) (m : list (pyval * pyval)) :
  list_entry (k, PyDict m) = ([EPrint (msg_entry k (display_name (PyDict m)))], Done tt).
Proof. reflexivity. Qed.

Lemma all_mappings_cons (kv : pyval * pyval) (d : list (pyval * pyval)) :
  all_mappings (kv :: d) = true ->
  (exists m, snd kv = PyDict m) /\ all_mappings d = true.
Proof.
  unfold all_mappings. simpl. intros H.
  apply andb_true_iff in H. destruct H as [Hm Hd]. split; [| exact Hd].
  destruct (snd kv); try discriminate. eexists; reflexivity.
Qed.

Lemma for_each_listing (d : list (pyval * pyval)) :
  all_mappings d = true ->
  for_each d list_entry = (listing d, Done tt).
Proof.
  induction d as [| [k v] d IH]; intros Hall.
  - reflexivity.
  - apply all_mappings_cons in Hall. destruct Hall as [[m Hm] Hd].
    simpl in Hm. subst v. cbn [for_each].
    rewrite list_entry_mapping, bind_done, (IH Hd). reflexivity.
Qed.

Lemma listing_no_network (d : list (pyval * pyval)) :
  existsb is_network (listing d) = false.
Proof. induction d as [| kv d IH]; simpl; auto. Qed.

Lemma loaded_prefix_no_network (path : string) (d : list (pyval * pyval)) :
  existsb is_network (loaded_prefix path d) = false.
Proof.
  unfold loaded_prefix. rewrite !existsb_app, listing_no_network. reflexivity.
Qed.

Lemma lookup_some_nonempty (key : string) (d : list (pyval * pyval)) (v : pyval) :
  dict_lookup key d = Some v -> truthy (PyDict d) = true.
Proof. destruct d; [discriminate | reflexivity]. Qed.

(** Loading a non-empty mapping of mappings: the block lists it and hands
    [config] on. *)
Lemma load_and_list_ok (w : VerifyModels.world) (path f : string)
    (d : list (pyval * pyval)) :
  fs_open w path = Ok f ->
  yaml_safe_load w f = Ok (PyDict d) ->
  truthy (PyDict d) = true ->
  all_mappings d = true ->
  load_and_list w path =
    (([EOpen path; ESafeLoad; EPrint msg_available] ++ listing d
        ++ [EPrint msg_separator])%list, Done (PyDict d)).
Proof.
  intros Hopen Hload Htruthy Hall. unfold load_and_list.
  rewrite Hopen. run_py. rewrite Hload.
  run_py. rewrite Htruthy.
  run_py. rewrite (for_each_listing d Hall).
  reflexivity.
Qed.

(** The run up to the alias test, on a non-empty mapping of mappings. *)
Lemma verify_loaded (w : VerifyModels.world)
    (path project loc alias prompt f : string) (d : list (pyval * pyval)) :
  fs_open w path = Ok f ->
  yaml_safe_load w f = Ok (PyDict d) ->
  truthy (PyDict d) = true ->
  all_mappings d = true ->
  verify_model_usage_with w path project loc alias prompt =
    bind (loaded_prefix path d, Done (PyDict d))
      (fun config =>
         absent <- lift (match py_contains alias config with
                         | Ok b => Ok (negb b)
                         | Raise e => Raise e
                         end) ;;
         if (absent : bool) then
           print (msg_skip alias) ;;; return_
         else
           entry <- lift (py_getitem config alias) ;;
           endpoint_id <- lift (py_getitem entry "endpoint_id") ;;
           print (msg_live_test alias endpoint_id) ;;;
           live_test w project loc endpoint_id prompt).
Proof.
  intros Hopen Hload Htruthy Hall. unfold verify_model_usage_with.
  rewrite (load_and_list_ok w path f d Hopen Hload Htruthy Hall).
  unfold print. rewrite !bind_done. reflexivity.
Qed.

(** ** Properties of verify_models.py *)



(** A failure to open the file other than a missing file takes the generic
    clause. *)
Lemma other_open_failure_is_generic (w : VerifyModels.world)
    (path project loc alias prompt : string) (e : exn) :
  fs_open w path = Raise e ->
  is_FileNotFoundError (cls e) = false ->
  is_Exception (cls e) = true ->
  verify_model_usage_with w path project loc alias prompt =
    ([EPrint (msg_loading path); EOpen path; EPrint (msg_read_error e)], Return).
Proof.
  intros Hopen Hnf Hexc. unfold verify_model_usage_with, load_and_list.
  rewrite Hopen. run_py. rewrite Hnf, Hexc. reflexivity.
Qed.

(** C6, as the code has it.  When no file exists at the path ([open]
    raises [FileNotFoundError]), the run prints the not-found diagnostic
    naming that path and returns; the generic read-or-parse diagnostic is
    not printed. *)
Theorem missing_file_reports_not_found (w : VerifyModels.world)
    (path project loc alias prompt : string) (e : exn) :
  fs_open w path = Raise e ->
  cls e = FileNotFoundError ->
  verify_model_usage_with w path project loc alias prompt =
    ([EPrint [Lit "--- Loading models from "; Lit path; Lit (" ---" ++ nl)];
      EOpen path;
      EPrint [Lit "❌ Error: Configuration file not found at "; Lit path]],
     Return)
  /\ existsb is_read_error_line
       (trace (verify_model_usage_with w path project loc alias prompt)) = false.
Proof.
  intros Hopen Hcls.
  assert (Hrun : verify_model_usage_with w path project loc alias prompt =
            ([EPrint (msg_loading path); EOpen path; EPrint (msg_not_found path)],
             Return)).
  { unfold verify_model_usage_with, load_and_list.
    rewrite Hopen. run_py. rewrite Hcls. reflexivity. }
  rewrite Hrun. split; reflexivity.
Qed.

Lemma missing_file_reports_not_found_witness :
  verify_model_usage missing_file_world =
    ([EPrint [Lit "--- Loading models from ";
              Lit "src/vtx_cli/configs/models.yaml"; Lit (" ---" ++ nl)];
      EOpen "src/vtx_cli/configs/models.yaml";
      EPrint [Lit "❌ Error: Configuration file not found at ";
              Lit "src/vtx_cli/configs/models.yaml"]], Return).
Proof.
  exact (proj1
    (missing_file_reports_not_found missing_file_world
       config_path project_id location model_to_test VerifyModels.prompt
       (mk_exn FileNotFoundError
          [Lit "[Errno 2] No such file or directory: "; Repr (PyStr config_path)])
       eq_refl eq_refl)).
Defined.

(** C6 as the specification words it fails: a path that names a directory
    does not resolve to a file either, but [open] raises
    [IsADirectoryError], which the first clause does not take: the generic
    read-or-parse diagnostic is printed and the not-found one is not. *)
Lemma directory_path_gets_the_generic_line :
  verify_model_usage directory_world =
    ([EPrint [Lit "--- Loading models from ";
              Lit "src/vtx_cli/configs/models.yaml"; Lit (" ---" ++ nl)];
      EOpen "src/vtx_cli/configs/models.yaml";
      EPrint [Lit "❌ Error reading or parsing YAML file: ";
              Lit "[Errno 21] Is a directory: ";
              Repr (PyStr "src/vtx_cli/configs/models.yaml")]], Return)
  /\ existsb is_not_found_line (trace (verify_model_usage directory_world)) = false
  /\ existsb is_read_error_line (trace (verify_model_usage directory_world)) = true.
Proof. repeat split; reflexivity. Qed.

(** C7.  When the file parses to a falsy object, in particular to an empty
    mapping, the run prints the empty-configuration diagnostic and returns:
    nothing is listed, no connection is opened and no model is called. *)
Theorem empty_config_no_probe (w : VerifyModels.world)
    (path project loc alias prompt f : string) (config : pyval) :
  fs_open w path = Ok f ->
  yaml_safe_load w f = Ok config ->
  truthy config = false ->
  verify_model_usage_with w path project loc alias prompt =
    ([EPrint [Lit "--- Loading models from "; Lit path; Lit (" ---" ++ nl)];
      EOpen path; ESafeLoad;
      EPrint [Lit "❌ Error: models.yaml is empty or could not be read."]],
     Return)
  /\ existsb is_network
       (trace (verify_model_usage_with w path project loc alias prompt)) = false.
Proof.
  intros Hopen Hload Hfalsy.
  assert (Hrun : verify_model_usage_with w path project loc alias prompt =
            ([EPrint (msg_loading path); EOpen path; ESafeLoad; EPrint msg_empty],
             Return)).
  { unfold verify_model_usage_with, load_and_list.
    rewrite Hopen. run_py. rewrite Hload. run_py. rewrite Hfalsy. reflexivity. }
  rewrite Hrun. split; reflexivity.
Qed.

Lemma empty_config_no_probe_witness :
  verify_model_usage (sdk_world (Ok (PyDict [])) "hi") =
    ([EPrint [Lit "--- Loading models from ";
              Lit "src/vtx_cli/configs/models.yaml"; Lit (" ---" ++ nl)];
      EOpen "src/vtx_cli/configs/models.yaml"; ESafeLoad;
      EPrint [Lit "❌ Error: models.yaml is empty or could not be read."]],
     Return).
Proof.
  exact (proj1
    (empty_config_no_probe (sdk_world (Ok (PyDict [])) "hi")
       config_path project_id location model_to_test VerifyModels.prompt "models"
       (PyDict []) eq_refl eq_refl eq_refl)).
Defined.



Lemma lookup_in (key : string) (d : list (pyval * pyval)) (v : pyval) :
  dict_lookup key d = Some v -> In (PyStr key, v) d.
Proof.
  induction d as [| [k x] d IH]; simpl; [discriminate |].
  destruct (eq_str key k) eqn:Hk.
  - intros H. injection H as ->. left.
    destruct k; try discriminate. simpl in Hk.
    apply String.eqb_eq in Hk. subst. reflexivity.
  - intros H. right. apply IH, H.
Qed.

(** C10.  In a mapping of mappings the listing never fails, and an entry
    without a 'name' is listed with [None] as its display name: the line
    "- alias (None)" is printed.  The
    endpoint identifier of the probed entry is read by subscript: when the
    entry has it, the run goes on to the live test with it; when the entry
    lacks it, the run raises [KeyError] right after the listing. *)
Theorem name_optional_endpoint_subscripted (w : VerifyModels.world)
    (path project loc alias prompt f : string) (d m : list (pyval * pyval)) :
  fs_open w path = Ok f ->
  yaml_safe_load w f = Ok (PyDict d) ->
  all_mappings d = true ->
  dict_lookup alias d = Some (PyDict m) ->
  dict_lookup "name" m = None ->
  for_each d list_entry = (listing d, Done tt)
  /\ In (EPrint (msg_entry (PyStr alias) PyNone)) (listing d)
  /\ In (EPrint [Lit "- "; Fmt (PyStr alias); Lit " ("; Fmt PyNone; Lit ")"])
       (trace (for_each d list_entry))
  /\ In (EPrint [Lit "- "; Fmt (PyStr alias); Lit " ("; Fmt PyNone; Lit ")"])
       (trace (verify_model_usage_with w path project loc alias prompt))
  /\ verify_model_usage_with w path project loc alias prompt =
       match dict_lookup "endpoint_id" m with
       | Some endpoint_id =>
           bind ((loaded_prefix path d
                    ++ [EPrint (msg_live_test alias endpoint_id)])%list, Done tt)
                (fun _ => live_test w project loc endpoint_id prompt)
       | None =>
           (loaded_prefix path d, Throw (mk_exn KeyError [Repr (PyStr "endpoint_id")]))
       end.
Proof.
  intros Hopen Hload Hall Halias Hname.
  assert (Hline : In (EPrint (msg_entry (PyStr alias) PyNone)) (listing d)).
  { pose proof (lookup_in alias d _ Halias) as Hin. unfold listing.
    apply (in_map (fun kv => EPrint (msg_entry (fst kv) (display_name (snd kv)))))
      in Hin.
    cbn [fst snd display_name] in Hin. rewrite Hname in Hin. exact Hin. }
  split; [| split; [| split; [| split]]].
  - apply for_each_listing, Hall.
  - exact Hline.
  - rewrite (for_each_listing d Hall). exact Hline.
  - rewrite (verify_loaded w path project loc alias prompt f d Hopen Hload
               (lookup_some_nonempty alias d _ Halias) Hall).
    rewrite trace_bind. cbn [trace fst]. apply in_or_app. left.
    unfold loaded_prefix. apply in_or_app. right. apply in_or_app. left.
    exact Hline.
  - rewrite (verify_loaded w path project loc alias prompt f d Hopen Hload
               (lookup_some_nonempty alias d _ Halias) Hall).
    rewrite bind_done. cbn [py_contains py_getitem lift]. rewrite Halias.
    run_py. destruct (dict_lookup "endpoint_id" m) as [endpoint_id |].
    + run_py. destruct (live_test w project loc endpoint_id prompt) as [t o].
      cbn. rewrite <- !app_assoc. reflexivity.
    + cbn. rewrite app_nil_r. reflexivity.
Qed.

Lemma name_optional_endpoint_subscripted_witness :
  In (EPrint [Lit "- "; Fmt (PyStr "gemini-pro"); Lit " ("; Fmt PyNone; Lit ")"])
    (trace (verify_model_usage (sdk_world (Ok unnamed_config) "hi")))
  /\ verify_model_usage (sdk_world (Ok unnamed_config) "hi") =
    bind ([EPrint (msg_loading config_path); EOpen config_path; ESafeLoad;
           EPrint msg_available;
           EPrint (msg_entry (PyStr "gemini-pro") PyNone);
           EPrint msg_separator;
           EPrint (msg_live_test "gemini-pro" (PyStr "gemini-pro-001"))], Done tt)
         (fun _ => live_test (sdk_world (Ok unnamed_config) "hi") project_id location
                     (PyStr "gemini-pro-001") VerifyModels.prompt).
Proof.
  exact (proj2 (proj2 (proj2
    (name_optional_endpoint_subscripted (sdk_world (Ok unnamed_config) "hi")
       config_path project_id location model_to_test VerifyModels.prompt "models"
       [(PyStr "gemini-pro", PyDict [(PyStr "endpoint_id", PyStr "gemini-pro-001")])]
       [(PyStr "endpoint_id", PyStr "gemini-pro-001")]
       eq_refl eq_refl eq_refl eq_refl eq_refl)))).
Defined.

(** C1, on the configuration
    {"gemini-pro": {"name": "Gemini Pro"}}: the subscript at line 41 stands
    between the two [try] statements, so its [KeyError] leaves
    [verify_model_usage]; the interpreter reports it and the process exits
    with status 1. *)
Theorem missing_endpoint_id_escapes (w : VerifyModels.world) (f : string) :
  fs_open w config_path = Ok f ->
  yaml_safe_load w f = Ok no_endpoint_config ->
  VerifyModels.main w =
    ([EPrint (msg_loading config_path); EOpen config_path; ESafeLoad;
      EPrint msg_available;
      EPrint (msg_entry (PyStr "gemini-pro") (PyStr "Gemini Pro"));
      EPrint msg_separator],
     Crashed (mk_exn KeyError [Repr (PyStr "endpoint_id")]) 1).
Proof.
  intros Hopen Hload.
  unfold VerifyModels.main, verify_model_usage, verify_model_usage_with, load_and_list.
  rewrite Hopen. run_py. rewrite Hload. reflexivity.
Qed.

Lemma missing_endpoint_id_escapes_witness :
  exit_status (snd (VerifyModels.main (sdk_world (Ok no_endpoint_config) "hi"))) = 1.
Proof.
  exact (f_equal (fun r => exit_status (snd r))
    (missing_endpoint_id_escapes (sdk_world (Ok no_endpoint_config) "hi") "models"
       eq_refl eq_refl)).
Defined.

(** ** Properties of panggil_model.py *)

Lemma raise_for_status_error (r : http_response) :
  400 <= status_code r < 600 ->
  exists m, raise_for_status r =
              Raise {| cls := HTTPError; msg := m; response := Some r |}.
Proof.
  intros [Hlo Hhi]. unfold raise_for_status.
  destruct (status_code r <? 500) eqn:H5.
  - replace (400 <=? status_code r) with true by (symmetry; apply Z.leb_le; lia).
    cbn [andb]. eexists; reflexivity.
  - rewrite andb_false_r.
    replace (500 <=? status_code r) with true
      by (symmetry; apply Z.leb_le; apply Z.ltb_ge in H5; lia).
    replace (status_code r <? 600) with true by (symmetry; apply Z.ltb_lt; lia).
    cbn [andb]. eexists; reflexivity.
Qed.

Lemma raise_for_status_quiet (r : http_response) :
  status_code r < 400 \/ 600 <= status_code r ->
  raise_for_status r = Ok tt.
Proof.
  intros H. unfold raise_for_status.
  destruct H as [H | H].
  - replace (400 <=? status_code r) with false by (symmetry; apply Z.leb_gt; lia).
    replace (500 <=? status_code r) with false by (symmetry; apply Z.leb_gt; lia).
    reflexivity.
  - replace (status_code r <? 500) with false by (symmetry; apply Z.ltb_ge; lia).
    replace (status_code r <? 600) with false by (symmetry; apply Z.ltb_ge; lia).
    rewrite !andb_false_r. reflexivity.
Qed.

(** The run up to the answer of the POST. *)
Lemma panggil_posted (w : PanggilModel.world) (project region model prompt : string)
    (c : credentials) :
  google_auth_default w SCOPES = Ok c ->
  cred_refresh c = Ok tt ->
  attempt w project region model prompt =
    bind (posted_prefix project region model prompt (cred_token c),
          match requests_post w (build_url project region)
                  (build_headers (cred_token c)) (build_data model prompt) with
          | Ok r => Done r
          | Raise e => Throw e
          end)
      (fun response =>
         lift (raise_for_status response) ;;;
         print msg_response_header ;;;
         v <- lift (response_json response) ;;
         print [JsonDumps v 2] ;;;
         print msg_success).
Proof.
  intros Hauth Href. unfold attempt.
  rewrite Hauth. run_py. rewrite Href. run_py.
  destruct (requests_post w (build_url project region)
              (build_headers (cred_token c)) (build_data model prompt)) as [r | e].
  - run_py. destruct (raise_for_status r);
      [unfold response_json; destruct (body r) |]; reflexivity.
  - reflexivity.
Qed.

(** X20.  When the status of the answer is outside 400..599 and its body
    decodes as JSON, the run prints the answer header, the decoded body as
    [json.dumps] renders it and the success line, and ends normally,
    whatever the body says. *)
Lemma quiet_status_is_success (w : PanggilModel.world)
    (project region model prompt : string) (c : credentials)
    (resp : http_response) (v : pyval) :
  google_auth_default w SCOPES = Ok c ->
  cred_refresh c = Ok tt ->
  requests_post w (build_url project region) (build_headers (cred_token c))
    (build_data model prompt) = Ok resp ->
  status_code resp < 400 \/ 600 <= status_code resp ->
  body resp = JsonOk v ->
  panggil_model_vertex_with w project region model prompt =
    ((posted_prefix project region model prompt (cred_token c)
        ++ [EPrint msg_response_header; EPrint [JsonDumps v 2];
            EPrint msg_success])%list, Done tt).
Proof.
  intros Hauth Href Hpost Hstatus Hbody. unfold panggil_model_vertex_with.
  rewrite (panggil_posted w project region model prompt c Hauth Href), Hpost.
  rewrite bind_done, (raise_for_status_quiet resp Hstatus).
  unfold response_json. rewrite Hbody. reflexivity.
Qed.

(** C3, as the code has it.  When the response has a status of the
    client-error or server-error class (400 to 599) and its body decodes as
    JSON, the run prints the HTTP diagnostic with that status code, then the
    decoded body as [json.dumps] renders it, then the two hint lines, and
    returns: the process exits with status 0. *)
Theorem http_error_with_json_body_reported (w : PanggilModel.world)
    (project region model prompt : string) (c : credentials)
    (resp : http_response) (v : pyval) :
  google_auth_default w SCOPES = Ok c ->
  cred_refresh c = Ok tt ->
  requests_post w (build_url project region) (build_headers (cred_token c))
    (build_data model prompt) = Ok resp ->
  400 <= status_code resp < 600 ->
  body resp = JsonOk v ->
  panggil_model_vertex_with w project region model prompt =
    ((posted_prefix project region model prompt (cred_token c)
        ++ [EPrint [Lit "❌ GAGAL: Terjadi error HTTP ";
                    Fmt (PyInt (status_code resp))];
            EPrint [Lit "--- Pesan Error dari Server ---"];
            EPrint [JsonDumps v 2];
            EPrint [Lit (nl ++ "Seperti yang diduga, ini kemungkinan besar karena proyek Anda belum memiliki akses ke model ini di Model Garden.")];
            EPrint [Lit "Silakan aktifkan model di Google Cloud Console terlebih dahulu."]])%list,
     Done tt)
  /\ exit_status (snd (run_main
       (panggil_model_vertex_with w project region model prompt))) = 0.
Proof.
  intros Hauth Href Hpost Hstatus Hbody.
  assert (Hrun : panggil_model_vertex_with w project region model prompt =
    ((posted_prefix project region model prompt (cred_token c)
        ++ [EPrint (msg_http_error (status_code resp)); EPrint msg_server_says;
            EPrint [JsonDumps v 2];
            EPrint msg_model_garden; EPrint msg_enable_hint])%list, Done tt)).
  { unfold panggil_model_vertex_with.
    rewrite (panggil_posted w project region model prompt c Hauth Href), Hpost.
    rewrite bind_done.
    destruct (raise_for_status_error resp Hstatus) as [m Hraise]. rewrite Hraise.
    cbn -[posted_prefix]. unfold response_json. rewrite Hbody.
    rewrite app_nil_r. reflexivity. }
  rewrite Hrun. split; reflexivity.
Qed.

Lemma http_error_with_json_body_reported_witness :
  PanggilModel.main (http_world forbidden_response) =
    ((posted_prefix PROJECT_ID REGION MODEL_ID PROMPT "ya29.token"
        ++ [EPrint [Lit "❌ GAGAL: Terjadi error HTTP "; Fmt (PyInt 403)];
            EPrint [Lit "--- Pesan Error dari Server ---"];
            EPrint [JsonDumps
                      (PyDict [(PyStr "error",
                                 PyDict [(PyStr "message",
                                           PyStr "model not found")])]) 2];
            EPrint [Lit (nl ++ "Seperti yang diduga, ini kemungkinan besar karena proyek Anda belum memiliki akses ke model ini di Model Garden.")];
            EPrint [Lit "Silakan aktifkan model di Google Cloud Console terlebih dahulu."]])%list,
     Exited 0).
Proof.
  exact (f_equal run_main (proj1
    (http_error_with_json_body_reported (http_world forbidden_response)
       PROJECT_ID REGION MODEL_ID PROMPT good_credentials forbidden_response
       model_not_found eq_refl eq_refl eq_refl
       (conj (proj1 (Z.leb_le 400 403) eq_refl) (proj1 (Z.ltb_lt 403 600) eq_refl))
       eq_refl))).
Defined.

(** C3 as the specification words it fails: a 304 is not a 2xx response,
    yet [raise_for_status] lets it through.  It has no body, so decoding it
    fails inside the [try]: the run prints the answer header and the
    catch-all diagnostic; no HTTP diagnostic with the status code is
    printed. *)
Lemma not_modified_gets_no_http_diagnostic :
  non_2xx (status_code not_modified_response) = true
  /\ panggil_model_vertex (http_world not_modified_response) =
       ((posted_prefix PROJECT_ID REGION MODEL_ID PROMPT "ya29.token"
           ++ [EPrint [Lit "--- Respons dari Model ---"];
               EPrint [Lit "❌ GAGAL: Terjadi error yang tidak terduga: ";
                       Lit "Expecting value: line 1 column 1 (char 0)"]])%list,
        Done tt)
  /\ existsb is_http_error_line
       (trace (panggil_model_vertex (http_world not_modified_response))) = false.
Proof. repeat split; reflexivity. Qed.

(** C4.  Once a token is at hand the run posts exactly once, whatever the
    transport answers: to
    https://{region}-aiplatform.googleapis.com/v1/projects/{project}/locations/{region}/endpoints/openapi/chat/completions,
    with the headers Authorization: Bearer <token> and
    Content-Type: application/json, and with the JSON body
    {model, stream: false, messages: [{role: "user", content: prompt}]}. *)
Theorem request_is_built_as_documented (w : PanggilModel.world)
    (project region model prompt : string) (c : credentials) :
  google_auth_default w SCOPES = Ok c ->
  cred_refresh c = Ok tt ->
  filter is_post (trace (panggil_model_vertex_with w project region model prompt)) =
    [EPost
       ("https://" ++ (region ++ "-aiplatform.googleapis.com") ++ "/v1/projects/"
          ++ project ++ "/locations/" ++ region
          ++ "/endpoints/openapi/chat/completions")
       [("Authorization", "Bearer " ++ cred_token c);
        ("Content-Type", "application/json")]
       (PyDict
          [(PyStr "model", PyStr model);
           (PyStr "stream", PyBool false);
           (PyStr "messages",
             PyList [PyDict [(PyStr "role", PyStr "user");
                             (PyStr "content", PyStr prompt)]])])].
Proof.
  intros Hauth Href. unfold panggil_model_vertex_with.
  rewrite (panggil_posted w project region model prompt c Hauth Href).
  destruct (requests_post w (build_url project region)
              (build_headers (cred_token c)) (build_data model prompt)) as [r | e].
  - rewrite bind_done. unfold raise_for_status.
    destruct ((400 <=? status_code r) && (status_code r <? 500));
      [| destruct ((500 <=? status_code r) && (status_code r <? 600))];
      cbn -[posted_prefix]; unfold response_json;
      destruct (body r); reflexivity.
  - rewrite bind_throw.
    destruct e as [k m [r |]]; destruct k; try reflexivity;
      cbn -[posted_prefix]; unfold response_json;
      destruct (body r); reflexivity.
Qed.

Lemma request_is_built_as_documented_witness :
  filter is_post (trace (panggil_model_vertex (http_world forbidden_response))) =
    [EPost
       "https://us-south1-aiplatform.googleapis.com/v1/projects/protean-tooling-476420-i8/locations/us-south1/endpoints/openapi/chat/completions"
       [("Authorization", "Bearer ya29.token");
        ("Content-Type", "application/json")]
       (PyDict
          [(PyStr "model", PyStr "gemini-1.0-pro");
           (PyStr "stream", PyBool false);
           (PyStr "messages",
             PyList [PyDict [(PyStr "role", PyStr "user");
                             (PyStr "content",
                               PyStr "What is the capital of Texas?")]])])].
Proof.
  exact (request_is_built_as_documented (http_world forbidden_response)
           PROJECT_ID REGION MODEL_ID PROMPT good_credentials eq_refl eq_refl).
Defined.

(** C5.  When the identity provider has no default credentials
    ([google.auth.default] raises [DefaultCredentialsError]) the run prints
    the missing-credentials diagnostic and its hint and returns.  The
    credentials are asked for before anything else is called, so no token
    is refreshed and nothing is posted; the process exits with status 0. *)
Theorem missing_credentials_reported (w : PanggilModel.world)
    (project region model prompt : string) (e : exn) :
  google_auth_default w SCOPES = Raise e ->
  cls e = DefaultCredentialsError ->
  panggil_model_vertex_with w project region model prompt =
    ([EPrint [Lit "Mencoba memanggil model: "; Lit model; Lit nl];
      EPrint [Lit "Mengambil token autentikasi dari gcloud..."];
      EAuthDefault ["https://www.googleapis.com/auth/cloud-platform"];
      EPrint [Lit "❌ GAGAL: Kredensial tidak ditemukan."];
      EPrint [Lit "Pastikan Anda sudah menjalankan 'gcloud auth application-default login'."]],
     Done tt)
  /\ existsb is_post
       (trace (panggil_model_vertex_with w project region model prompt)) = false
  /\ existsb is_network
       (trace (panggil_model_vertex_with w project region model prompt)) = false
  /\ exit_status (snd (run_main
       (panggil_model_vertex_with w project region model prompt))) = 0.
Proof.
  intros Hauth Hcls.
  assert (Hrun : panggil_model_vertex_with w project region model prompt =
    ([EPrint [Lit "Mencoba memanggil model: "; Lit model; Lit nl];
      EPrint [Lit "Mengambil token autentikasi dari gcloud..."];
      EAuthDefault SCOPES;
      EPrint msg_no_credentials;
      EPrint msg_login_hint], Done tt)).
  { unfold panggil_model_vertex_with, attempt.
    rewrite Hauth. run_py. rewrite Hcls. reflexivity. }
  rewrite Hrun. repeat split.
Qed.

Lemma missing_credentials_reported_witness :
  PanggilModel.main no_credentials_world =
    ([EPrint [Lit "Mencoba memanggil model: "; Lit "gemini-1.0-pro"; Lit nl];
      EPrint [Lit "Mengambil token autentikasi dari gcloud..."];
      EAuthDefault ["https://www.googleapis.com/auth/cloud-platform"];
      EPrint [Lit "❌ GAGAL: Kredensial tidak ditemukan."];
      EPrint [Lit "Pastikan Anda sudah menjalankan 'gcloud auth application-default login'."]],
     Exited 0).
Proof.
  exact (f_equal run_main (proj1
    (missing_credentials_reported no_credentials_world
       PROJECT_ID REGION MODEL_ID PROMPT
       (mk_exn DefaultCredentialsError [Lit "Your default credentials were not found."])
       eq_refl eq_refl))).
Defined.

(** C9, as the code has it.  When the response has a status of the
    client-error or server-error class (400 to 599, the codes for which
    [raise_for_status] raises) and its body does not decode as JSON, the
    decoding error is raised inside the [HTTPError] clause, after the first
    two lines of the diagnostic.  The catch-all clause of the same [try]
    does not see it: its line is not printed, the exception leaves
    [panggil_model_vertex] and the process ends with status 1. *)
Theorem undecodable_error_body_escapes (w : PanggilModel.world)
    (project region model prompt : string) (c : credentials)
    (resp : http_response) (why : string) :
  google_auth_default w SCOPES = Ok c ->
  cred_refresh c = Ok tt ->
  requests_post w (build_url project region) (build_headers (cred_token c))
    (build_data model prompt) = Ok resp ->
  400 <= status_code resp < 600 ->
  body resp = JsonBad why ->
  panggil_model_vertex_with w project region model prompt =
    ((posted_prefix project region model prompt (cred_token c)
        ++ [EPrint [Lit "❌ GAGAL: Terjadi error HTTP ";
                    Fmt (PyInt (status_code resp))];
            EPrint [Lit "--- Pesan Error dari Server ---"]])%list,
     Throw (mk_exn JSONDecodeError [Lit why]))
  /\ existsb is_unexpected_line
       (trace (panggil_model_vertex_with w project region model prompt)) = false
  /\ run_main (panggil_model_vertex_with w project region model prompt) =
       ((posted_prefix project region model prompt (cred_token c)
           ++ [EPrint [Lit "❌ GAGAL: Terjadi error HTTP ";
                       Fmt (PyInt (status_code resp))];
               EPrint [Lit "--- Pesan Error dari Server ---"]])%list,
        Crashed (mk_exn JSONDecodeError [Lit why]) 1).
Proof.
  intros Hauth Href Hpost Hstatus Hbody.
  assert (Hrun : panggil_model_vertex_with w project region model prompt =
    ((posted_prefix project region model prompt (cred_token c)
        ++ [EPrint (msg_http_error (status_code resp)); EPrint msg_server_says])%list,
     Throw (mk_exn JSONDecodeError [Lit why]))).
  { unfold panggil_model_vertex_with.
    rewrite (panggil_posted w project region model prompt c Hauth Href), Hpost.
    rewrite bind_done.
    destruct (raise_for_status_error resp Hstatus) as [m Hraise]. rewrite Hraise.
    cbn -[posted_prefix]. unfold response_json. rewrite Hbody.
    rewrite app_nil_r. reflexivity. }
  rewrite Hrun. repeat split.
Qed.

Lemma undecodable_error_body_escapes_witness :
  PanggilModel.main (http_world bad_gateway_response) =
    ((posted_prefix PROJECT_ID REGION MODEL_ID PROMPT "ya29.token"
        ++ [EPrint [Lit "❌ GAGAL: Terjadi error HTTP "; Fmt (PyInt 502)];
            EPrint [Lit "--- Pesan Error dari Server ---"]])%list,
     Crashed (mk_exn JSONDecodeError
                [Lit "Expecting value: line 1 column 1 (char 0)"]) 1).
Proof.
  exact (proj2 (proj2
    (undecodable_error_body_escapes (http_world bad_gateway_response)
       PROJECT_ID REGION MODEL_ID PROMPT good_credentials bad_gateway_response
       "Expecting value: line 1 column 1 (char 0)" eq_refl eq_refl eq_refl
       (conj (proj1 (Z.leb_le 400 502) eq_refl) (proj1 (Z.ltb_lt 502 600) eq_refl))
       eq_refl))).
Defined.

(** C9 as it is worded fails: a 304 is a non-2xx response whose (empty)
    body is no JSON, but no [HTTPError] is raised for it.  The decoding
    error is raised inside the [try], the catch-all clause takes it, its
    diagnostic is printed and the process exits with status 0. *)
Lemma not_modified_decoding_error_is_caught :
  non_2xx (status_code not_modified_response) = true
  /\ body not_modified_response = JsonBad "Expecting value: line 1 column 1 (char 0)"
  /\ result (panggil_model_vertex (http_world not_modified_response)) = Done tt
  /\ existsb is_unexpected_line
       (trace (panggil_model_vertex (http_world not_modified_response))) = true
  /\ exit_status (snd (PanggilModel.main (http_world not_modified_response))) = 0.
Proof. repeat split; reflexivity. Qed.

(** ** Which exceptions leave the two functions *)

Lemma result_bind {A B} (m : M A) (k : A -> M B) :
  result (bind m k) =
    match result m with
    | Done a => result (k a)
    | Return => Return
    | Throw e => Throw e
    end.
Proof.
  destruct m as [t [a | | e]]; try reflexivity.
  cbn. destruct (k a); reflexivity.
Qed.

Lemma result_try_except {A} (m : M A) (hs : list (handler A)) :
  result (try_except m hs) =
    match result m with
    | Throw e =>
        match select hs e with
        | Some h => result (h e)
        | None => Throw e
        end
    | o => o
    end.
Proof.
  destruct m as [t [a | | e]]; try reflexivity.
  cbn. destruct (select hs e) as [h |]; [destruct (h e) |]; reflexivity.
Qed.

Lemma result_call {A} (ev : event) (r : res A) :
  result (call ev r) = match r with Ok a => Done a | Raise e => Throw e end.
Proof. reflexivity. Qed.

Lemma result_lift {A} (r : res A) :
  result (lift r) = match r with Ok a => Done a | Raise e => Throw e end.
Proof. reflexivity. Qed.

(** The listing loop stops at the first value that is no mapping, with an
    [AttributeError]. *)
Lemma for_each_listing_result (d : list (pyval * pyval)) :
  (all_mappings d = true /\ result (for_each d list_entry) = Done tt)
  \/ (exists e, result (for_each d list_entry) = Throw e /\ cls e = AttributeError).
Proof.
  induction d as [| [k v] d IH].
  - left. split; reflexivity.
  - cbn [for_each]. rewrite result_bind.
    destruct v; try (right; eexists; split; reflexivity).
    cbn [list_entry py_get lift bind print result snd].
    destruct IH as [[Hall Hres] | [e [Hres Hcls]]].
    + left. split; [exact Hall | exact Hres].
    + right. exists e. split; assumption.
Qed.

(** The loading block either returns or hands on a non-empty mapping of
    mappings. *)
Lemma load_and_list_result (w : VerifyModels.world) (path : string) :
  sdk_raises_exceptions w ->
  result (load_and_list w path) = Return
  \/ (exists d, result (load_and_list w path) = Done (PyDict d)
                /\ truthy (PyDict d) = true /\ all_mappings d = true).
Proof.
  intros (Hopen & Hload & _). unfold load_and_list.
  rewrite result_try_except, result_bind, result_call.
  specialize (Hopen path). destruct (fs_open w path) as [f | e].
  - rewrite result_bind, result_call.
    specialize (Hload f). destruct (yaml_safe_load w f) as [config | e].
    + destruct (truthy config) eqn:Htruthy; cbn [negb].
      * rewrite !result_bind. cbn [print result snd]. rewrite result_lift.
        destruct config; try (left; reflexivity).
        cbn [py_items]. rewrite result_bind.
        destruct (for_each_listing_result d) as [[Hall Hres] | [e [Hres Hcls]]];
          rewrite Hres.
        -- right. exists d. repeat split; assumption.
        -- left. cbn [select]. rewrite Hcls. reflexivity.
      * left. reflexivity.
    + left. cbn in Hload. cbn [select].
      destruct (is_FileNotFoundError (cls e)); [reflexivity |].
      rewrite Hload. reflexivity.
  - left. cbn in Hopen. cbn [select].
    destruct (is_FileNotFoundError (cls e)); [reflexivity |].
    rewrite Hopen. reflexivity.
Qed.

(** The live test catches whatever its collaborators raise. *)
Lemma live_test_result (w : VerifyModels.world) (project loc : string)
    (endpoint_id : pyval) (prompt : string) :
  sdk_raises_exceptions w ->
  result (live_test w project loc endpoint_id prompt) = Done tt.
Proof.
  intros (_ & _ & Hinit & Hmodel & Hgen & Htext). unfold live_test.
  rewrite result_try_except.
  specialize (Hinit project loc). specialize (Hmodel endpoint_id).
  specialize (Hgen endpoint_id prompt). specialize (Htext endpoint_id prompt).
  repeat (rewrite result_bind; cbn [print result snd]).
  rewrite result_call.
  destruct (vertexai_init w project loc) as [[] | e];
    [| cbn in Hinit; cbn [select]; rewrite Hinit; reflexivity].
  repeat (rewrite result_bind; cbn [print result snd]).
  rewrite result_call.
  destruct (GenerativeModel w endpoint_id) as [[] | e];
    [| cbn in Hmodel; cbn [select]; rewrite Hmodel; reflexivity].
  repeat (rewrite result_bind; cbn [print result snd]).
  rewrite result_call.
  destruct (generate_content w endpoint_id prompt) as [r | e];
    [| cbn in Hgen; cbn [select]; rewrite Hgen; reflexivity].
  specialize (Htext r eq_refl).
  repeat (rewrite result_bind; cbn [print result snd]).
  rewrite result_lift.
  destruct (text r) as [txt | e];
    [reflexivity | cbn in Htext; cbn [select]; rewrite Htext; reflexivity].
Qed.

Example sdk_world_raises_exceptions (loaded : pyval) (answer : string) :
  sdk_raises_exceptions (sdk_world (Ok loaded) answer).
Proof. repeat split. intros ep p r H. injection H as <-. exact I. Qed.

Example http_world_raises_exceptions (r : http_response) :
  transport_raises_exceptions (http_world r).
Proof. repeat split. intros s c H. injection H as <-. exact I. Qed.

(** On a standard output that takes every line, and with collaborators
    that raise subclasses of [Exception], the one exception that leaves
    [verify_model_usage] is the [KeyError] of the
    subscript ['endpoint_id']. *)
Theorem verify_escapes_only_keyerror (w : VerifyModels.world)
    (path project loc alias prompt : string) (e : exn) :
  sdk_raises_exceptions w ->
  result (verify_model_usage_with w path project loc alias prompt) = Throw e ->
  e = mk_exn KeyError [Repr (PyStr "endpoint_id")].
Proof.
  intros Hw. unfold verify_model_usage_with.
  rewrite result_bind. cbn [print result snd]. rewrite result_bind.
  destruct (load_and_list_result w path Hw) as [Hres | (d & Hres & Htruthy & Hall)];
    rewrite Hres; [discriminate |].
  rewrite result_bind, result_lift. cbn [py_contains].
  destruct (dict_lookup alias d) as [entry |] eqn:Halias; cbn [negb].
  - rewrite result_bind, result_lift. cbn [py_getitem]. rewrite Halias.
    rewrite result_bind, result_lift.
    assert (Hentry : exists m, entry = PyDict m).
    { apply lookup_in in Halias. unfold all_mappings in Hall.
      rewrite forallb_forall in Hall. specialize (Hall _ Halias).
      destruct entry; try discriminate. eexists; reflexivity. }
    destruct Hentry as [m ->]. cbn [py_getitem].
    destruct (dict_lookup "endpoint_id" m) as [endpoint_id |].
    + rewrite result_bind. cbn [print result snd].
      rewrite (live_test_result w project loc endpoint_id prompt Hw). discriminate.
    + intros H. injection H as <-. reflexivity.
  - rewrite result_bind. cbn [print result snd]. discriminate.
Qed.

(** On a standard output that takes every line, and with collaborators
    that raise subclasses of [Exception], an exception leaves
    [panggil_model_vertex] only from inside the [HTTPError] clause, and it
    is the [AttributeError] of a missing response or the decoding error of
    its body. *)
Theorem panggil_escapes_only_from_http_clause (w : PanggilModel.world)
    (project region model prompt : string) (e : exn) :
  transport_raises_exceptions w ->
  result (panggil_model_vertex_with w project region model prompt) = Throw e ->
  exists e0,
    result (attempt w project region model prompt) = Throw e0
    /\ cls e0 = HTTPError
    /\ result (on_http_error e0) = Throw e
    /\ (cls e = AttributeError \/ cls e = JSONDecodeError).
Proof.
  intros Hw. unfold panggil_model_vertex_with. rewrite result_try_except.
  assert (Hexc : forall e0, result (attempt w project region model prompt) = Throw e0 ->
                            is_Exception (cls e0) = true).
  { destruct Hw as (Hauth & Href & Hpost). intros e0. unfold attempt.
    repeat (rewrite result_bind; cbn [print result snd]). rewrite result_call.
    specialize (Hauth SCOPES). specialize (Href SCOPES).
    destruct (google_auth_default w SCOPES) as [c | e1];
      [| intros H; injection H as <-; exact Hauth].
    specialize (Href c eq_refl).
    rewrite result_bind, result_call.
    destruct (cred_refresh c) as [[] | e1];
      [| intros H; injection H as <-; exact Href].
    repeat (rewrite result_bind; cbn [print result snd]). rewrite result_call.
    specialize (Hpost (build_url project region) (build_headers (cred_token c))
                  (build_data model prompt)).
    destruct (requests_post w (build_url project region)
                (build_headers (cred_token c)) (build_data model prompt)) as [r | e1];
      [| intros H; injection H as <-; exact Hpost].
    rewrite result_bind, result_lift. unfold raise_for_status.
    destruct ((400 <=? status_code r) && (status_code r <? 500));
      [intros H; injection H as <-; reflexivity |].
    destruct ((500 <=? status_code r) && (status_code r <? 600));
      [intros H; injection H as <-; reflexivity |].
    repeat (rewrite result_bind; cbn [print result snd]). rewrite result_lift.
    unfold response_json. destruct (body r); [discriminate |].
    intros H; injection H as <-; reflexivity. }
  destruct (result (attempt w project region model prompt)) as [[] | | e0] eqn:Hres;
    try discriminate.
  specialize (Hexc e0 eq_refl). cbn [select].
  destruct (is_DefaultCredentialsError (cls e0)); [discriminate |].
  destruct (is_HTTPError (cls e0)) eqn:Hhttp.
  - intros Hthrow. exists e0. repeat split; try assumption.
    + destruct (cls e0); try discriminate; reflexivity.
    + revert Hthrow. unfold on_http_error, exn_response, response_json.
      destruct (response e0) as [r |]; cbn.
      * destruct (body r); cbn; [discriminate |].
        intros H; injection H as <-. right; reflexivity.
      * intros H; injection H as <-. left; reflexivity.
  - rewrite Hexc. discriminate.
Qed.

(** ** The live test of verify_models.py *)










(** X5.  When [generate_content] is interrupted by an exception that is no
    [Exception] (a [KeyboardInterrupt]), the clause of the live test does
    not take it: nothing more is printed and the exception leaves the live
    test. *)
Theorem interrupt_leaves_the_live_test (w : VerifyModels.world)
    (project loc : string) (endpoint_id : pyval) (prompt : string) (e : exn) :
  vertexai_init w project loc = Ok tt ->
  GenerativeModel w endpoint_id = Ok tt ->
  generate_content w endpoint_id prompt = Raise e ->
  is_Exception (cls e) = false ->
  live_test w project loc endpoint_id prompt =
    (firstn 9 (live_success project loc endpoint_id prompt EmptyString), Throw e).
Proof.
  intros Hinit Hmodel Hgen Hexc. unfold live_test.
  rewrite Hinit. cbn. rewrite Hmodel. cbn. rewrite Hgen. cbn. rewrite Hexc.
  reflexivity.
Qed.

Lemma interrupt_leaves_the_live_test_witness :
  result (live_test (probe_world (Ok gemini_config) (Ok tt) (Ok tt) (Raise interrupt))
            project_id location (PyStr "gemini-pro-001") VerifyModels.prompt) =
    Throw interrupt.
Proof.
  exact (f_equal snd
    (interrupt_leaves_the_live_test
       (probe_world (Ok gemini_config) (Ok tt) (Ok tt) (Raise interrupt))
       project_id location (PyStr "gemini-pro-001") VerifyModels.prompt
       interrupt eq_refl eq_refl eq_refl eq_refl)).
Defined.

(** The live test sends the prompt at most once. *)
Lemma live_test_generates_once (w : VerifyModels.world) (project loc : string)
    (endpoint_id : pyval) (prompt : string) :
  (length (filter is_generate (trace (live_test w project loc endpoint_id prompt)))
     <= 1)%nat.
Proof.
  unfold live_test.
  destruct (vertexai_init w project loc) as [[] | e]; cbn;
    [| destruct (is_Exception (cls e)); cbn; lia].
  destruct (GenerativeModel w endpoint_id) as [[] | e]; cbn;
    [| destruct (is_Exception (cls e)); cbn; lia].
  destruct (generate_content w endpoint_id prompt) as [r | e]; cbn;
    [| destruct (is_Exception (cls e)); cbn; lia].
  destruct (text r) as [txt | e]; cbn;
    [| destruct (is_Exception (cls e)); cbn]; lia.
Qed.

(** ** The loading block of verify_models.py, on any environment *)

Lemma for_each_no_network (d : list (pyval * pyval)) :
  existsb is_network (trace (for_each d list_entry)) = false.
Proof.
  induction d as [| [k v] d IH]; [reflexivity |].
  cbn [for_each]. rewrite trace_bind, existsb_app.
  destruct v; try reflexivity.
  cbn [list_entry py_get lift bind print trace result fst snd app existsb is_network orb].
  exact IH.
Qed.

Lemma load_and_list_no_network (w : VerifyModels.world) (path : string) :
  existsb is_network (trace (load_and_list w path)) = false.
Proof.
  unfold load_and_list.
  destruct (fs_open w path) as [f | e];
    [| cbn; destruct (is_FileNotFoundError (cls e));
       [| destruct (is_Exception (cls e))]; reflexivity].
  run_py.
  destruct (yaml_safe_load w f) as [config | e];
    [| cbn; destruct (is_FileNotFoundError (cls e));
       [| destruct (is_Exception (cls e))]; reflexivity].
  destruct config as [| b | z | s | l | d]; cbn -[for_each];
    try (destruct b); try (destruct (z =? 0)); try (destruct (String.eqb s EmptyString));
    try (destruct l); try reflexivity.
  destruct d as [| kv d]; [reflexivity |]. cbn -[for_each].
  pose proof (for_each_no_network (kv :: d)) as Hloop.
  destruct (for_each (kv :: d) list_entry) as [t [[] | | e]]; cbn in Hloop |- *.
  - rewrite existsb_app, Hloop. reflexivity.
  - exact Hloop.
  - destruct (is_FileNotFoundError (cls e));
      [| destruct (is_Exception (cls e))]; cbn; rewrite ?existsb_app, Hloop;
      reflexivity.
Qed.

(** The block hands [config] on only when the file opened, parsed to a
    non-empty mapping and every value of it is a mapping. *)
Lemma load_and_list_done (w : VerifyModels.world) (path : string) (config : pyval) :
  result (load_and_list w path) = Done config ->
  exists f d,
    fs_open w path = Ok f
    /\ yaml_safe_load w f = Ok (PyDict d)
    /\ config = PyDict d
    /\ truthy (PyDict d) = true
    /\ all_mappings d = true.
Proof.
  unfold load_and_list.
  rewrite result_try_except, result_bind, result_call.
  destruct (fs_open w path) as [f | e] eqn:Hopen;
    [| cbn [select]; destruct (is_FileNotFoundError (cls e));
       [| destruct (is_Exception (cls e))]; discriminate].
  rewrite result_bind, result_call.
  destruct (yaml_safe_load w f) as [loaded | e] eqn:Hload;
    [| cbn [select]; destruct (is_FileNotFoundError (cls e));
       [| destruct (is_Exception (cls e))]; discriminate].
  destruct (truthy loaded) eqn:Htruthy; cbn [negb]; [| discriminate].
  rewrite !result_bind. cbn [print result snd]. rewrite result_lift.
  destruct loaded as [| b | z | s | l | d]; try discriminate.
  cbn [py_items]. rewrite result_bind.
  destruct (for_each_listing_result d) as [[Hall Hres] | [e [Hres Hcls]]];
    rewrite Hres.
  - rewrite result_bind. cbn. intros H. injection H as <-.
    exists f, d. repeat split; assumption.
  - cbn [select]. rewrite Hcls. discriminate.
Qed.

(** A run either never reaches the remote service, or it is the listing of
    a loaded mapping followed by the live test with the endpoint
    identifier of the probed entry. *)
Lemma verify_run_split (w : VerifyModels.world)
    (path project loc alias prompt : string) :
  existsb is_network
    (trace (verify_model_usage_with w path project loc alias prompt)) = false
  \/ exists f d m endpoint_id,
       fs_open w path = Ok f
       /\ yaml_safe_load w f = Ok (PyDict d)
       /\ all_mappings d = true
       /\ dict_lookup alias d = Some (PyDict m)
       /\ dict_lookup "endpoint_id" m = Some endpoint_id
       /\ trace (verify_model_usage_with w path project loc alias prompt) =
            (loaded_prefix path d
               ++ EPrint (msg_live_test alias endpoint_id)
               :: trace (live_test w project loc endpoint_id prompt))%list.
Proof.
  destruct (result (load_and_list w path)) as [config | | e] eqn:Hres.
  - destruct (load_and_list_done w path config Hres)
      as (f & d & Hopen & Hload & -> & Htruthy & Hall).
    rewrite (verify_loaded w path project loc alias prompt f d Hopen Hload Htruthy Hall).
    rewrite bind_done. cbn [py_contains py_getitem lift].
    destruct (dict_lookup alias d) as [entry |] eqn:Halias.
    + assert (Hentry : exists m, entry = PyDict m).
      { apply lookup_in in Halias. unfold all_mappings in Hall.
        rewrite forallb_forall in Hall. specialize (Hall _ Halias).
        destruct entry; try discriminate. eexists; reflexivity. }
      destruct Hentry as [m ->]. run_py.
      destruct (dict_lookup "endpoint_id" m) as [endpoint_id |] eqn:Hep.
      * right. exists f, d, m, endpoint_id. repeat split; try assumption.
        run_py. destruct (live_test w project loc endpoint_id prompt) as [t o].
        reflexivity.
      * left. run_py. rewrite app_nil_r. apply loaded_prefix_no_network.
    + left. cbn [negb bind print return_ trace result fst snd app].
      rewrite existsb_app, loaded_prefix_no_network. reflexivity.
  - left. unfold verify_model_usage_with.
    rewrite trace_bind. cbn [print trace result fst snd app].
    rewrite trace_bind, Hres, app_nil_r. cbn [existsb is_network orb].
    apply load_and_list_no_network.
  - left. unfold verify_model_usage_with.
    rewrite trace_bind. cbn [print trace result fst snd app].
    rewrite trace_bind, Hres, app_nil_r. cbn [existsb is_network orb].
    apply load_and_list_no_network.
Qed.

Lemma no_network_no_generate (l : list event) :
  existsb is_network l = false -> filter is_generate l = [].
Proof.
  induction l as [| ev l IH]; [reflexivity |].
  cbn [existsb filter]. intros H. apply orb_false_iff in H. destruct H as [Hev Hl].
  destruct ev; try discriminate; cbn; apply IH, Hl.
Qed.

(** X6.  Whatever the environment answers, a run that initialises the
    connection, builds a model, or sends a prompt has opened the file,
    parsed it to a mapping whose values are all mappings, and found in it
    an entry for the probed alias that has an 'endpoint_id'. *)
Theorem probe_needs_a_configured_alias (w : VerifyModels.world)
    (path project loc alias prompt : string) :
  existsb is_network
    (trace (verify_model_usage_with w path project loc alias prompt)) = true ->
  exists f d m endpoint_id,
    fs_open w path = Ok f
    /\ yaml_safe_load w f = Ok (PyDict d)
    /\ all_mappings d = true
    /\ dict_lookup alias d = Some (PyDict m)
    /\ dict_lookup "endpoint_id" m = Some endpoint_id.
Proof.
  intros Hnet.
  destruct (verify_run_split w path project loc alias prompt)
    as [Hquiet | (f & d & m & ep & Hopen & Hload & Hall & Halias & Hep & _)].
  - rewrite Hquiet in Hnet. discriminate.
  - exists f, d, m, ep. repeat split; assumption.
Qed.

Lemma probe_needs_a_configured_alias_witness :
  exists f d m endpoint_id,
    fs_open (sdk_world (Ok gemini_config) "hi") config_path = Ok f
    /\ yaml_safe_load (sdk_world (Ok gemini_config) "hi") f = Ok (PyDict d)
    /\ all_mappings d = true
    /\ dict_lookup model_to_test d = Some (PyDict m)
    /\ dict_lookup "endpoint_id" m = Some endpoint_id.
Proof.
  exact (probe_needs_a_configured_alias (sdk_world (Ok gemini_config) "hi")
           config_path project_id location model_to_test VerifyModels.prompt
           eq_refl).
Defined.

(** X7.  Whatever the environment answers, a run sends the prompt to the
    model at most once: nothing is retried. *)
Theorem prompt_is_sent_at_most_once (w : VerifyModels.world)
    (path project loc alias prompt : string) :
  (length (filter is_generate
             (trace (verify_model_usage_with w path project loc alias prompt)))
     <= 1)%nat.
Proof.
  destruct (verify_run_split w path project loc alias prompt)
    as [Hquiet | (f & d & m & ep & _ & _ & _ & _ & _ & Htrace)].
  - rewrite (no_network_no_generate _ Hquiet). cbn. lia.
  - rewrite Htrace, filter_app.
    rewrite (no_network_no_generate _ (loaded_prefix_no_network path d)).
    cbn [app filter is_generate].
    apply live_test_generates_once.
Qed.











(** ** panggil_model.py on any environment *)

Lemma quiet_status_is_success_witness :
  PanggilModel.main (http_world ok_response) =
    ((posted_prefix PROJECT_ID REGION MODEL_ID PROMPT "ya29.token"
        ++ [EPrint msg_response_header;
            EPrint [JsonDumps (PyDict [(PyStr "choices", PyList [])]) 2];
            EPrint msg_success])%list, Exited 0).
Proof.
  exact (f_equal run_main
    (quiet_status_is_success (http_world ok_response)
       PROJECT_ID REGION MODEL_ID PROMPT good_credentials ok_response
       (PyDict [(PyStr "choices", PyList [])]) eq_refl eq_refl eq_refl
       (or_introl (proj1 (Z.ltb_lt 200 400) eq_refl)) eq_refl)).
Defined.







(** Case analysis of a run of [panggil_model_vertex] along the answers of
    its collaborators and the clause that takes the exception. *)
Ltac clause_cases e :=
  destruct (is_DefaultCredentialsError (cls e)) eqn:?; run_py;
  [| destruct (is_HTTPError (cls e)) eqn:?; run_py;
     [ unfold exn_response; destruct (response e) as [? |] eqn:?; run_py;
       [ unfold response_json;
         match goal with |- context [body ?r] => destruct (body r) eqn:? end;
         run_py
       |]
     | destruct (is_Exception (cls e)) eqn:?; run_py ] ].

Ltac panggil_cases w project region model prompt :=
  unfold panggil_model_vertex_with, attempt;
  let c := fresh "c" in
  let e := fresh "e" in
  let r := fresh "r" in
  destruct (google_auth_default w SCOPES) as [c | e] eqn:?; run_py;
  [ destruct (cred_refresh c) as [[] | e] eqn:?; run_py;
    [ destruct (requests_post w (build_url project region)
                  (build_headers (cred_token c)) (build_data model prompt))
        as [r | e] eqn:?; run_py;
      [ destruct (raise_for_status r) as [[] | e] eqn:?; run_py;
        [ unfold response_json; destruct (body r) eqn:?; run_py
        | clause_cases e ]
      | clause_cases e ]
    | clause_cases e ]
  | clause_cases e ].

(** X16.  Whatever the environment answers, a run posts at most once:
    nothing is retried. *)
Theorem request_is_posted_at_most_once (w : PanggilModel.world)
    (project region model prompt : string) :
  (length (filter is_post
             (trace (panggil_model_vertex_with w project region model prompt)))
     <= 1)%nat.
Proof.
  panggil_cases w project region model prompt; cbn; lia.
Qed.

(** X17.  Whatever the environment answers, a run that posts has found
    default credentials and refreshed them before: without a fresh token
    nothing is sent. *)
Theorem post_needs_fresh_credentials (w : PanggilModel.world)
    (project region model prompt : string) :
  existsb is_post
    (trace (panggil_model_vertex_with w project region model prompt)) = true ->
  exists c, google_auth_default w SCOPES = Ok c /\ cred_refresh c = Ok tt.
Proof.
  panggil_cases w project region model prompt; cbn;
    intros Hposted; try discriminate;
    (eexists; split; [reflexivity | eassumption]).
Qed.

Lemma post_needs_fresh_credentials_witness :
  exists c,
    google_auth_default (http_world forbidden_response) SCOPES = Ok c
    /\ cred_refresh c = Ok tt.
Proof.
  exact (post_needs_fresh_credentials (http_world forbidden_response)
           PROJECT_ID REGION MODEL_ID PROMPT eq_refl).
Defined.

Lemma raise_for_status_ok_status (r : http_response) :
  raise_for_status r = Ok tt ->
  status_code r < 400 \/ 600 <= status_code r.
Proof.
  intros Hok.
  destruct (Z_lt_dec (status_code r) 400) as [Hlow | Hlow]; [left; exact Hlow |].
  destruct (Z_le_dec 600 (status_code r)) as [Hhigh | Hhigh]; [right; exact Hhigh |].
  destruct (raise_for_status_error r) as [m Hraise]; [lia |].
  rewrite Hraise in Hok. discriminate.
Qed.

(** X18.  A run prints its success line exactly when default credentials
    were found and refreshed, the transport answered, the status of the
    answer is outside 400..599 and its body decodes as JSON. *)
Theorem success_line_iff_answer_decoded (w : PanggilModel.world)
    (project region model prompt : string) :
  existsb is_success_line
    (trace (panggil_model_vertex_with w project region model prompt)) = true
  <->
  exists c r v,
    google_auth_default w SCOPES = Ok c
    /\ cred_refresh c = Ok tt
    /\ requests_post w (build_url project region) (build_headers (cred_token c))
         (build_data model prompt) = Ok r
    /\ (status_code r < 400 \/ 600 <= status_code r)
    /\ body r = JsonOk v.
Proof.
  split.
  - panggil_cases w project region model prompt; cbn;
      intros Hline; try discriminate;
      (do 3 eexists; split; [reflexivity |];
       split; [eassumption |]; split; [eassumption |];
       split; [apply raise_for_status_ok_status; eassumption | eassumption]).
  - intros (c & r & v & Hauth & Href & Hpost & Hstatus & Hbody).
    unfold panggil_model_vertex_with.
    rewrite (panggil_posted w project region model prompt c Hauth Href), Hpost.
    rewrite bind_done, (raise_for_status_quiet r Hstatus).
    unfold response_json. rewrite Hbody. reflexivity.
Qed.

(** X19.  The function itself puts the token into the request only: two
    runs whose credentials refresh alike and whose requests are answered
    alike print the same lines and end the same way, whatever the two
    tokens are.  (What the transport answers is printed as it is: an
    answer that echoes the header would differ between the two runs.) *)
Theorem output_depends_on_answers_not_token (w1 w2 : PanggilModel.world)
    (project region model prompt : string) (c1 c2 : credentials) :
  google_auth_default w1 SCOPES = Ok c1 ->
  google_auth_default w2 SCOPES = Ok c2 ->
  cred_refresh c1 = cred_refresh c2 ->
  requests_post w1 (build_url project region) (build_headers (cred_token c1))
    (build_data model prompt) =
  requests_post w2 (build_url project region) (build_headers (cred_token c2))
    (build_data model prompt) ->
  filter is_print (trace (panggil_model_vertex_with w1 project region model prompt)) =
  filter is_print (trace (panggil_model_vertex_with w2 project region model prompt))
  /\ result (panggil_model_vertex_with w1 project region model prompt) =
     result (panggil_model_vertex_with w2 project region model prompt).
Proof.
  intros Hauth1 Hauth2 Href Hpost.
  unfold panggil_model_vertex_with, attempt.
  rewrite Hauth1, Hauth2. run_py. rewrite Href.
  destruct (cred_refresh c2) as [[] | e]; run_py;
    [| clause_cases e; split; reflexivity].
  rewrite Hpost.
  destruct (requests_post w2 (build_url project region)
              (build_headers (cred_token c2)) (build_data model prompt))
    as [r | e]; run_py;
    [| clause_cases e; split; reflexivity].
  destruct (raise_for_status r) as [[] | e]; run_py;
    [| clause_cases e; split; reflexivity].
  unfold response_json. destruct (body r); split; reflexivity.
Qed.

Lemma output_depends_on_answers_not_token_witness :
  filter is_print (trace (panggil_model_vertex (http_world forbidden_response))) =
  filter is_print
    (trace (panggil_model_vertex
              (transport_world (Ok other_credentials) (Ok forbidden_response)))).
Proof.
  exact (proj1
    (output_depends_on_answers_not_token (http_world forbidden_response)
       (transport_world (Ok other_credentials) (Ok forbidden_response))
       PROJECT_ID REGION MODEL_ID PROMPT good_credentials other_credentials
       eq_refl eq_refl eq_refl eq_refl)).
Defined.

(** ** test_gcloud.py *)


(** X23.  When [aiplatform.init] raises an [Exception], the [except]
    clause takes it before the models are listed, and [pytest.fail] ends the
    test with "Vertex AI initialization failed: " followed by the message
    of the exception. *)
Theorem smoke_test_reports_init_failure (w : TestGcloud.world) (e : exn) :
  TestGcloud.aiplatform_init w TestGcloud.project TestGcloud.location = Raise e ->
  is_Exception (cls e) = true ->
  TestGcloud.test_vertex_ai_initialization w =
    ([EAiplatformInit "protean-tooling-476420-i8" "us-central1"],
     Throw (mk_exn PytestFailed (Lit "Vertex AI initialization failed: " :: msg e))).
Proof.
  intros Hinit Hexc. unfold TestGcloud.test_vertex_ai_initialization.
  rewrite Hinit. cbn. rewrite Hexc. reflexivity.
Qed.

Lemma smoke_test_reports_init_failure_witness :
  TestGcloud.test_vertex_ai_initialization unreachable_sdk =
    ([EAiplatformInit "protean-tooling-476420-i8" "us-central1"],
     Throw (mk_exn PytestFailed
              [Lit "Vertex AI initialization failed: ";
               Lit "403 Permission denied on resource project"])).
Proof.
  exact (smoke_test_reports_init_failure unreachable_sdk permission_denied
           eq_refl eq_refl).
Defined.

(** X24.  When [aiplatform.init] succeeds and [Model.list()] returns
    [None], the [assert] raises an [AssertionError] inside the [try]; it is
    an [Exception], so the test's own [except] clause takes it and
    [pytest.fail] ends the test with the initialisation message followed by
    the text of the assertion. *)
Theorem smoke_test_wraps_its_assertion (w : TestGcloud.world) :
  TestGcloud.aiplatform_init w TestGcloud.project TestGcloud.location = Ok tt ->
  TestGcloud.Model_list w = Ok PyNone ->
  TestGcloud.test_vertex_ai_initialization w =
    ([EAiplatformInit "protean-tooling-476420-i8" "us-central1"; EModelList],
     Throw (mk_exn PytestFailed
              (Lit "Vertex AI initialization failed: " :: TestGcloud.assert_message w))).
Proof.
  intros Hinit Hlist. unfold TestGcloud.test_vertex_ai_initialization.
  rewrite Hinit, Hlist. reflexivity.
Qed.

Lemma smoke_test_wraps_its_assertion_witness :
  result (TestGcloud.test_vertex_ai_initialization (listing_sdk (Ok PyNone))) =
    Throw (mk_exn PytestFailed
             [Lit "Vertex AI initialization failed: ";
              Lit "assert None is not None"]).
Proof.
  exact (f_equal snd
    (smoke_test_wraps_its_assertion (listing_sdk (Ok PyNone)) eq_refl eq_refl)).
Defined.
